(** * stock_quote: the Azure Function HTTP handler

    A shallow embedding of [stock_quote/__init__.py] (function [main]) and the
    properties of its request -> response mapping.

    Modelling choices, all read off the source:
    - a Python [str] is the list of its Unicode code points;
    - [req.params] is a finite map from [str] to [str], [req.url] a [str];
    - [yf.Ticker(symbol).info] is an outside collaborator: a function from the
      symbol to either a raised [Exception] or a dictionary of JSON-like
      values; [datetime.now()] is read from the environment as well;
    - a Python [float] is an IEEE 754 binary64 value ([spec_float]);
    - exceptions are instances of [Exception] (what [except Exception]
      catches); they are threaded through a small error monad and caught by
      the [try]/[except Exception] of [main];
    - the Unicode tables outside ASCII and the printing of a float are
      parameters of the model ([PyRuntime]); ASCII is handled concretely;
    - the [logging] calls write to the log and never change the response;
      what is kept of them is the evaluation of the f-string of line 69,
      which sits inside the [try] block and can raise;
    - turning an integer into text ([int.__repr__], an f-string) raises
      [ValueError] above the default limit of 4300 digits. *)

From Stdlib Require Import ZArith NArith List Bool Lia String Ascii.
From Stdlib Require Import DecimalString.
From Stdlib Require Import Floats.SpecFloat.
From stdpp Require Import base option list gmap.

Set Default Proof Using "Type".

(** ** Python strings *)

Definition pystr := list N.

(** The code points of an ASCII literal. *)
Definition str (s : string) : pystr :=
  List.map N_of_ascii (list_ascii_of_string s).

(** The same, with every apostrophe of the literal standing for a double
    quote (code point 34): used to write down expected JSON texts. *)
Definition jlit (s : string) : pystr :=
  List.map (fun c => if N.eqb c 39 then 34%N else c) (str s).

(** [s.split(sep)] for a one-character separator: never the empty list. *)
Fixpoint split (sep : N) (s : pystr) : list pystr :=
  match s with
  | [] => [[]]
  | c :: s' =>
      if N.eqb c sep then [] :: split sep s'
      else match split sep s' with
           | w :: ws => (c :: w) :: ws
           | [] => [[c]]
           end
  end.

Definition slash : N := 47.
Definition question_mark : N := 63.

(** The part of the Python runtime that the handler relies on and that is a
    table rather than an algorithm: the Unicode character database outside
    ASCII, and the shortest round-trip printing of a finite non-zero float. *)
Record PyRuntime := {
  uc_isalpha : N -> bool;          (* is the code point (>= 128) a letter *)
  uc_upper : N -> list N;          (* full upper-case mapping of a code point (>= 128) *)
  float_repr : bool -> positive -> Z -> pystr   (* repr of (-1)^s * m * 2^e *)
}.

(** A runtime whose tables know ASCII only; used to evaluate examples. *)
Definition ascii_runtime : PyRuntime :=
  {| uc_isalpha := fun _ => false;
     uc_upper := fun c => [c];
     float_repr := fun _ _ _ => str "<float>" |}.

(** ** The Unicode-aware string methods used by the handler *)

Section Strings.
Variable rt : PyRuntime.

Definition cp_isalpha (c : N) : bool :=
  if (c <? 128)%N
  then ((65 <=? c) && (c <=? 90) || (97 <=? c) && (c <=? 122))%N
  else uc_isalpha rt c.

Definition cp_upper (c : N) : list N :=
  if (c <? 128)%N
  then (if ((97 <=? c) && (c <=? 122))%N then [(c - 32)%N] else [c])
  else uc_upper rt c.

(** [s.isalpha()]: at least one character, and every character a letter. *)
Definition isalpha (s : pystr) : bool :=
  match s with
  | [] => false
  | _ => forallb cp_isalpha s
  end.

(** [s.upper()]: the upper-case mapping of every character, in order. *)
Definition upper (s : pystr) : pystr := flat_map cp_upper s.
End Strings.

(** ** Exceptions *)

(** A raised [Exception]; [detail] is what [str(e)] gives. *)
Inductive exn := Exception (detail : pystr).

Inductive result (A : Type) :=
| Return (a : A)
| Raise (e : exn).
Arguments Return {A} a.
Arguments Raise {A} e.

Definition bind {A B} (r : result A) (k : A -> result B) : result B :=
  match r with
  | Return a => k a
  | Raise e => Raise e
  end.

Notation "'let!' x ':=' r 'in' k" := (bind r (fun x => k))
  (at level 10, x name, r at level 100, k at level 200, only parsing).

(** [try: body except Exception as e: handler(e)] *)
Definition try_except {A} (body : result A) (handler : exn -> A) : A :=
  match body with
  | Return a => a
  | Raise e => handler e
  end.

(** [l[-1]] and [l[0]]: [IndexError] on the empty list. *)
Definition item_last {A} (l : list A) : result A :=
  match last l with
  | Some x => Return x
  | None => Raise (Exception (str "list index out of range"))
  end.

Definition item_first {A} (l : list A) : result A :=
  match head l with
  | Some x => Return x
  | None => Raise (Exception (str "list index out of range"))
  end.

(** ** Python values found in the provider's [info] dictionary *)

#[local] Unset Elimination Schemes.
Inductive pyval :=
| VNone
| VBool (b : bool)
| VInt (z : Z)
| VFloat (f : spec_float)
| VStr (s : pystr)
| VList (l : list pyval)
| VDict (d : list (pystr * pyval)).
#[local] Set Elimination Schemes.

(** Truth value of an object, as taken by [or] and [not]. *)
Definition truthy (v : pyval) : bool :=
  match v with
  | VNone => false
  | VBool b => b
  | VInt z => negb (z =? 0)%Z
  | VFloat (S754_zero _) => false
  | VFloat _ => true
  | VStr [] => false
  | VStr _ => true
  | VList [] => false
  | VList _ => true
  | VDict [] => false
  | VDict _ => true
  end.

(** [a or b] *)
Definition py_or (a b : pyval) : pyval := if truthy a then a else b.

(** [v is None] *)
Definition is_None (v : pyval) : bool :=
  match v with
  | VNone => true
  | _ => false
  end.

(** Truth value of a [str]: false for the empty string only. *)
Definition str_bool (s : pystr) : bool :=
  match s with
  | [] => false
  | _ => true
  end.

(** [not symbol] for the [Optional[str]] the handler holds. *)
Definition not_symbol (symbol : option pystr) : bool :=
  match symbol with
  | None => true
  | Some s => negb (str_bool s)
  end.

(** ** [round(x, ndigits)] *)

Inductive number :=
| Int (z : Z)
| Float (f : spec_float).

(** The integer nearest to [a / b] for [b > 0], ties going to the even one. *)
Definition div_half_even (a b : Z) : Z :=
  let q := (a / b)%Z in
  match (2 * (a mod b) ?= b)%Z with
  | Lt => q
  | Gt => (q + 1)%Z
  | Eq => if Z.even q then q else (q + 1)%Z
  end.

(** The integer nearest to [k * m * 2^e], ties going to the even one. *)
Definition scaled (k : Z) (m : positive) (e : Z) : Z :=
  if (0 <=? e)%Z then (k * Zpos m * 2 ^ e)%Z
  else div_half_even (k * Zpos m) (2 ^ (- e)).

(** The binary64 value nearest to [(-1)^s * n / d], ties going to the even
    mantissa, as the correctly rounded reading of a decimal gives it. With
    [k = e + 1074] the exponent above the smallest one, the mantissa is the
    integer nearest to [n * 2^1074 / (d * 2^k)], and [k] is chosen so that
    the mantissa has 53 bits, or is [0] for a subnormal result. *)
Definition b64_of_ratio (s : bool) (n d : Z) : spec_float :=
  if ((n <=? 0) || (d <=? 0))%Z then S754_zero s
  else
    let N := (n * 2 ^ 1074)%Z in
    let k1 := (Z.log2 N - Z.log2 d - 52)%Z in
    let k2 := if (N <? d * 2 ^ (k1 + 52))%Z then (k1 - 1)%Z else k1 in
    let k := Z.max 0 k2 in
    let m := div_half_even N (d * 2 ^ k) in
    let '(m, k) := if (m =? 2 ^ 53)%Z then (2 ^ 52, k + 1)%Z else (m, k) in
    if (m =? 0)%Z then S754_zero s
    else if (2045 <? k)%Z then S754_infinity s
    else S754_finite s (Z.to_pos m) (k - 1074).

(** The float written [digits * 10^-places] in decimal. *)
Definition b64_of_decimal (digits : Z) (places : nat) : spec_float :=
  b64_of_ratio (digits <? 0)%Z (Z.abs digits) (10 ^ Z.of_nat places).

(** [float.__round__] with [ndigits >= 0]: the closest multiple of
    [10^-ndigits], ties to even, read back as a float; NaN, infinities and
    zeros round to themselves. *)
Definition float_round (x : spec_float) (ndigits : nat) : result spec_float :=
  match x with
  | S754_finite s m e =>
      let pow := (10 ^ Z.of_nat ndigits)%Z in
      match b64_of_ratio s (scaled pow m e) pow with
      | S754_infinity _ =>
          Raise (Exception (str "rounded value too large to represent"))
      | r => Return r
      end
  | _ => Return x
  end.

Definition no_round (type : string) : exn :=
  Exception (str "type " ++ str type ++ str " doesn't define __round__ method").

Definition round (x : pyval) (ndigits : nat) : result number :=
  match x with
  | VBool b => Return (Int (if b then 1 else 0)%Z)
  | VInt z => Return (Int z)
  | VFloat f => let! r := float_round f ndigits in Return (Float r)
  | VNone => Raise (no_round "NoneType")
  | VStr _ => Raise (no_round "str")
  | VList _ => Raise (no_round "list")
  | VDict _ => Raise (no_round "dict")
  end.

(** ** [json.dumps] of a flat dictionary *)

Inductive jvalue :=
| JStr (s : pystr)
| JNum (n : number).

Definition hex_digit (n : N) : N :=
  if (n <? 10)%N then (48 + n)%N else (87 + n)%N.

(** [\uXXXX] with four lower-case hexadecimal digits. *)
Definition u_escape (n : N) : pystr :=
  [92; 117; hex_digit (n / 4096 mod 16); hex_digit (n / 256 mod 16);
   hex_digit (n / 16 mod 16); hex_digit (n mod 16)]%N.

(** One character of a JSON string under [ensure_ascii=True]. *)
Definition escape_char (c : N) : pystr :=
  if (c =? 92)%N then [92; 92]%N          (* backslash *)
  else if (c =? 34)%N then [92; 34]%N     (* double quote *)
  else if (c =? 8)%N then [92; 98]%N      (* \b *)
  else if (c =? 12)%N then [92; 102]%N    (* \f *)
  else if (c =? 10)%N then [92; 110]%N    (* \n *)
  else if (c =? 13)%N then [92; 114]%N    (* \r *)
  else if (c =? 9)%N then [92; 116]%N     (* \t *)
  else if ((32 <=? c) && (c <=? 126))%N then [c]
  else if (c <? 65536)%N then u_escape c
  else
    let n := (c - 65536)%N in
    u_escape (N.lor 55296 (N.land (N.shiftr n 10) 1023))
    ++ u_escape (N.lor 56320 (N.land n 1023)).

Definition encode_basestring_ascii (s : pystr) : pystr :=
  [34%N] ++ flat_map escape_char s ++ [34%N].

(** The decimal digits of an integer, with its sign. *)
Definition decimal (z : Z) : pystr := str (NilZero.string_of_int (Z.to_int z)).

(** The default limit on the number of digits an integer may have when it
    is turned into text ([sys.get_int_max_str_digits()]). *)
Definition int_max_str_digits : Z := 4300.

(** The integer has more than [int_max_str_digits] decimal digits. *)
Definition over_limit (z : Z) : bool :=
  (10 ^ int_max_str_digits <=? Z.abs z)%Z.

Definition limit_error : exn :=
  Exception (str "Exceeds the limit (4300 digits) for integer string conversion; use sys.set_int_max_str_digits() to increase the limit").

(** [int.__repr__], also what [str] and an f-string make of an integer:
    [ValueError] above the digit limit. *)
Definition int_repr (z : Z) : result pystr :=
  if over_limit z then Raise limit_error else Return (decimal z).

(** Turning a value into text raises exactly when an integer above the
    digit limit has to be written, at any depth. *)
Fixpoint str_raises (v : pyval) : bool :=
  match v with
  | VInt z => over_limit z
  | VList l => existsb str_raises l
  | VDict d => existsb (fun kv : pystr * pyval => str_raises (snd kv)) d
  | _ => false
  end.

(** Evaluating the f-string of line 69, [f'... {symbol}: ${current_price}'].
    The text goes to the log and is not kept; the error, if any, is. *)
Definition format_price (current_price : pyval) : result unit :=
  if str_raises current_price then Raise limit_error else Return tt.

Section Json.
Variable rt : PyRuntime.

(** How the encoder writes a float. *)
Definition floatstr (f : spec_float) : pystr :=
  match f with
  | S754_nan => str "NaN"
  | S754_infinity false => str "Infinity"
  | S754_infinity true => str "-Infinity"
  | S754_zero false => str "0.0"
  | S754_zero true => str "-0.0"
  | S754_finite s m e => float_repr rt s m e
  end.

Definition dumps_value (v : jvalue) : pystr :=
  match v with
  | JStr s => encode_basestring_ascii s
  | JNum (Int z) => decimal z
  | JNum (Float f) => floatstr f
  end.

Definition dumps_item (kv : pystr * jvalue) : pystr :=
  encode_basestring_ascii (fst kv) ++ str ": " ++ dumps_value (snd kv).

(** [", ".join(items)] *)
Fixpoint join_items (items : list pystr) : pystr :=
  match items with
  | [] => []
  | [x] => x
  | x :: rest => x ++ str ", " ++ join_items rest
  end.

(** The text of [json.dumps(d)] for a dictionary [d] with string keys, in
    insertion order, and string or number values. A dictionary of strings is
    always written; see [json_dumps] for when a number is not. *)
Definition dumps (d : list (pystr * jvalue)) : pystr :=
  str "{" ++ join_items (List.map dumps_item d) ++ str "}".

(** The encoder at work: each value in turn, an integer through
    [int.__repr__]. *)
Definition write_value (v : jvalue) : result pystr :=
  match v with
  | JStr s => Return (encode_basestring_ascii s)
  | JNum (Int z) => int_repr z
  | JNum (Float f) => Return (floatstr f)
  end.

Fixpoint write_items (d : list (pystr * jvalue)) : result (list pystr) :=
  match d with
  | [] => Return []
  | (key, v) :: rest =>
      let! text := write_value v in
      let! texts := write_items rest in
      Return ((encode_basestring_ascii key ++ str ": " ++ text) :: texts)
  end.

(** [json.dumps(d)]: the text, or the [ValueError] of an integer above the
    digit limit. *)
Definition json_dumps (d : list (pystr * jvalue)) : result pystr :=
  let! items := write_items d in
  Return (str "{" ++ join_items items ++ str "}").
End Json.

(** ** Request, response and environment *)

Record HttpRequest := {
  params : gmap pystr pystr;
  url : pystr
}.

Record HttpResponse := {
  body : pystr;
  status_code : Z;
  mimetype : pystr
}.

(** The outside world of one invocation: what [yf.Ticker(symbol).info]
    does for each symbol (raise, or give a dictionary), and what the two
    readings of [datetime.now()] give. A [datetime] lies in the years 1 to
    9999, which bounds its timestamp. *)
Record Env := {
  ticker_info : pystr -> result (gmap pystr pyval);
  now_strftime : pystr;     (* datetime.now().strftime("%Y-%m-%d") *)
  now_timestamp : Z;        (* int(datetime.now().timestamp()) *)
  now_timestamp_range : (Z.abs now_timestamp < 10 ^ 12)%Z
}.

(** [info.get(key)] *)
Definition info_get (info : gmap pystr pyval) (key : pystr) : pyval :=
  default VNone (info !! key).

(** Line 48: the price taken from the provider's dictionary. *)
Definition current_price (info : gmap pystr pyval) : pyval :=
  py_or (info_get info (str "currentPrice"))
        (info_get info (str "regularMarketPrice")).

(** ** The handler *)

Section Handler.
Variable rt : PyRuntime.
Variable env : Env.

Definition json_response (d : list (pystr * jvalue)) (status : Z) : HttpResponse :=
  {| body := dumps rt d; status_code := status;
     mimetype := str "application/json" |}.

(** Line 30: does the candidate look like a stock symbol. *)
Definition looks_like_symbol (potential_symbol : pystr) : bool :=
  str_bool potential_symbol
  && isalpha rt potential_symbol
  && (length potential_symbol <=? 5)%nat.

(** Lines 18-31: the symbol from the query parameter, else from the URL. *)
Definition resolve_symbol (req : HttpRequest) : result (option pystr) :=
  let symbol := params req !! str "symbol" in
  if not_symbol symbol then
    let url_parts := split slash (url req) in
    if (0 <? length url_parts)%nat then
      let! potential_symbol := item_last url_parts in
      let! potential_symbol := item_first (split question_mark potential_symbol) in
      if looks_like_symbol potential_symbol
      then Return (Some potential_symbol)
      else Return symbol
    else Return symbol
  else Return symbol.

Definition missing_symbol_response : HttpResponse :=
  json_response
    [(str "error",
      JStr (str "Stock symbol parameter is required. Use ?symbol=AAPL or /stock_quote/AAPL"))]
    400.

Definition no_price_response (symbol : pystr) : HttpResponse :=
  json_response
    [(str "error", JStr (str "Could not retrieve price for symbol " ++ symbol))]
    404.

Definition internal_error_response : HttpResponse :=
  json_response [(str "error", JStr (str "Internal server error occurred"))] 500.

(** Lines 62-67: the dictionary of a successful answer. *)
Definition response_data (symbol : pystr) (price : number) : list (pystr * jvalue) :=
  [(str "date", JStr (now_strftime env));
   (str "price", JNum price);
   (str "symbol", JStr symbol);
   (str "time", JNum (Int (now_timestamp env)))].

(** Lines 41-75: from the resolved symbol to the response. *)
Definition quote (symbol : pystr) : result HttpResponse :=
  let symbol := upper rt symbol in
  let! info := ticker_info env symbol in
  let current_price := current_price info in
  if is_None current_price then Return (no_price_response symbol)
  else
    let! price := round current_price 2 in
    let! _ := format_price current_price in
    let! text := json_dumps rt (response_data symbol price) in
    Return {| body := text; status_code := 200;
              mimetype := str "application/json" |}.

(** The body of the [try] block. *)
Definition main_body (req : HttpRequest) : result HttpResponse :=
  let! symbol := resolve_symbol req in
  match symbol with
  | None | Some [] => Return missing_symbol_response
  | Some symbol => quote symbol
  end.

Definition main (req : HttpRequest) : HttpResponse :=
  try_except (main_body req) (fun e => internal_error_response).
End Handler.

(** ** Vocabulary of the specification *)

(** [w] is the final segment of [s] cut at [sep]: what follows the last
    [sep], or all of [s] when it holds no [sep]. *)
Definition final_segment (sep : N) (s w : pystr) : Prop :=
  (sep ∉ w) ∧ (s = w ∨ ∃ before, s = before ++ sep :: w).

(** [w] is [s] with everything from the first [sep] on stripped. *)
Definition stripped_at (sep : N) (s w : pystr) : Prop :=
  (sep ∉ w) ∧ (s = w ∨ ∃ rest, s = w ++ sep :: rest).

(** The candidate of the path method: the final path segment of the URL,
    split on [/], with any trailing query string stripped. *)
Definition path_candidate (u cand : pystr) : Prop :=
  ∃ seg, final_segment slash u seg ∧ stripped_at question_mark seg cand.

(** Purely alphabetic: every character is a letter. *)
Definition alphabetic (rt : PyRuntime) (s : pystr) : Prop :=
  Forall (fun c => cp_isalpha rt c = true) s.

(** [h] hundredths is a multiple of 0.01 closest to [m * 2^e]:
    [|100 * m * 2^e - h| <= 1/2], with the power of two cleared. *)
Definition nearest_hundredths (m : positive) (e : Z) (h : Z) : Prop :=
  (Z.abs (2 * (100 * Z.pos m * 2 ^ Z.max e 0) - 2 * h * 2 ^ Z.max (- e) 0)
   ≤ 2 ^ Z.max (- e) 0)%Z.

(** [m * 2^e] is a binary64 number: 53 bits of mantissa with an exponent in
    range, or fewer bits at the smallest exponent. *)
Definition is_binary64 (m : positive) (e : Z) : Prop :=
  ((2 ^ 52 ≤ Z.pos m < 2 ^ 53 ∧ -1074 ≤ e ≤ 971)
   ∨ (Z.pos m < 2 ^ 52 ∧ e = -1074))%Z.

(** [r] is a binary64 number of sign [s] closest to [n / d]: a binary64
    [m * 2^e] with [|n / d - m * 2^e| <= 2^e / 2], or zero when [n / d] is at
    most half the smallest binary64 number. The inequalities are written
    with everything multiplied by [d * 2^1074]. *)
Definition b64_nearest (s : bool) (n d : Z) (r : spec_float) : Prop :=
  match r with
  | S754_finite s' m e =>
      s' = s ∧ is_binary64 m e
      ∧ (Z.abs (2 * (n * 2 ^ 1074) - 2 * (Z.pos m * 2 ^ (e + 1074) * d))
         ≤ 2 ^ (e + 1074) * d)%Z
  | S754_zero s' => s' = s ∧ (2 * (n * 2 ^ 1074) ≤ d)%Z
  | _ => False
  end.

(** The price can be written: it is not an integer above the digit limit. *)
Definition writable (current_price : pyval) : Prop :=
  ∀ z, current_price = VInt z → (Z.abs z < 10 ^ int_max_str_digits)%Z.

Definition hex_char (c : N) : Prop :=
  ((48 ≤ c ≤ 57) ∨ (97 ≤ c ≤ 102))%N.

(** The inside of a JSON string literal in ASCII: plain printable
    characters other than the double quote and the backslash, and escape
    sequences that start with a backslash. *)
Inductive json_string_chars : pystr -> Prop :=
| chars_nil : json_string_chars []
| chars_plain c rest :
    (32 ≤ c ≤ 126)%N -> c ≠ 34%N -> c ≠ 92%N ->
    json_string_chars rest -> json_string_chars (c :: rest)
| chars_escape c rest :
    c ∈ [34; 92; 98; 102; 110; 114; 116]%N ->
    json_string_chars rest -> json_string_chars (92%N :: c :: rest)
| chars_unicode h1 h2 h3 h4 rest :
    hex_char h1 -> hex_char h2 -> hex_char h3 -> hex_char h4 ->
    json_string_chars rest ->
    json_string_chars (92%N :: 117%N :: h1 :: h2 :: h3 :: h4 :: rest).

(** Every character is an ASCII character. *)
Definition ascii_only (s : pystr) : Prop :=
  Forall (fun c => (c < 128)%N) s.

(** Every character is a printable ASCII character (space to tilde). *)
Definition printable_ascii (s : pystr) : Prop :=
  Forall (fun c => (32 ≤ c ≤ 126)%N) s.

(** No character is an ASCII lower-case letter. *)
Definition no_ascii_lower (s : pystr) : Prop :=
  Forall (fun c => ¬ (97 ≤ c ≤ 122)%N) s.

(** The query parameter the handler reads. *)
Definition symbol_param (req : HttpRequest) : option pystr :=
  params req !! str "symbol".

Definition without_symbol_param (req : HttpRequest) : HttpRequest :=
  {| params := delete (str "symbol") (params req); url := url req |}.

(** ** Sample inputs *)

Definition request (query : option string) (u : string) : HttpRequest :=
  {| params := match query with
               | Some v => {[ str "symbol" := str v ]}
               | None => ∅
               end;
     url := str u |}.

Definition info_of (primary fallback : option pyval) : gmap pystr pyval :=
  match primary, fallback with
  | Some a, Some b => {[ str "currentPrice" := a; str "regularMarketPrice" := b ]}
  | Some a, None => {[ str "currentPrice" := a ]}
  | None, Some b => {[ str "regularMarketPrice" := b ]}
  | None, None => ∅
  end.

Definition env_of (answer : result (gmap pystr pyval)) : Env :=
  {| ticker_info := fun _ => answer;
     now_strftime := str "2024-01-02";
     now_timestamp := 1704196800;
     now_timestamp_range := eq_refl |}.

(** The same provider read at another time. *)
Definition later (env : Env) : Env :=
  {| ticker_info := ticker_info env;
     now_strftime := str "2025-06-30";
     now_timestamp := 1751241600;
     now_timestamp_range := eq_refl |}.

(** * Properties *)

(** ** [split] *)

Section SplitFacts.
Variable sep : N.

Lemma split_nonempty (s : pystr) : split sep s ≠ [].
Proof.
  destruct s as [|c s]; simpl; [discriminate|].
  destruct (N.eqb c sep); [discriminate|].
  destruct (split sep s); discriminate.
Qed.

Lemma split_without_sep (w : pystr) : sep ∉ w → split sep w = [w].
Proof.
  induction w as [|c w IH]; intros Hw; [reflexivity|].
  apply not_elem_of_cons in Hw as [Hc Hw]. simpl.
  destruct (N.eqb_spec c sep) as [->|_]; [congruence|].
  rewrite (IH Hw). reflexivity.
Qed.

Lemma split_app_sep (before w : pystr) :
  split sep (before ++ sep :: w) = split sep before ++ split sep w.
Proof.
  induction before as [|c b IH]; simpl.
  - rewrite N.eqb_refl. reflexivity.
  - rewrite IH. destruct (N.eqb c sep); [reflexivity|].
    pose proof (split_nonempty b) as Hb.
    destruct (split sep b); [congruence | reflexivity].
Qed.

Lemma final_segment_exists (s : pystr) : ∃ w, final_segment sep s w.
Proof.
  induction s as [|c s [w [Hw [->|[before ->]]]]].
  - exists []. split; [apply not_elem_of_nil | by left].
  - destruct (N.eqb_spec sep c) as [<-|Hc].
    + exists w. split; [done|]. right. by exists [].
    + exists (c :: w). split; [|by left]. by apply not_elem_of_cons.
  - exists w. split; [done|]. right. by exists (c :: before).
Qed.

Lemma final_segment_last (s w : pystr) :
  final_segment sep s w → last (split sep s) = Some w.
Proof.
  intros [Hw [->|[before ->]]].
  - by rewrite split_without_sep.
  - rewrite split_app_sep, (split_without_sep w Hw). apply last_snoc.
Qed.

Lemma last_split (s w : pystr) :
  last (split sep s) = Some w ↔ final_segment sep s w.
Proof.
  split; [|apply final_segment_last].
  destruct (final_segment_exists s) as [w' Hw'].
  rewrite (final_segment_last _ _ Hw'). by intros [= <-].
Qed.

Lemma stripped_at_exists (s : pystr) : ∃ w, stripped_at sep s w.
Proof.
  induction s as [|c s [w [Hw Hs]]].
  - exists []. split; [apply not_elem_of_nil | by left].
  - destruct (N.eqb_spec sep c) as [<-|Hc].
    + exists []. split; [apply not_elem_of_nil|]. right. by exists s.
    + exists (c :: w). split; [by apply not_elem_of_cons|].
      destruct Hs as [->|[rest ->]]; [by left|]. right. by exists rest.
Qed.

Lemma stripped_at_head (s w : pystr) :
  stripped_at sep s w → head (split sep s) = Some w.
Proof.
  intros [Hw [->|[rest ->]]].
  - by rewrite split_without_sep.
  - by rewrite split_app_sep, (split_without_sep w Hw).
Qed.

Lemma head_split (s w : pystr) :
  head (split sep s) = Some w ↔ stripped_at sep s w.
Proof.
  split; [|apply stripped_at_head].
  destruct (stripped_at_exists s) as [w' Hw'].
  rewrite (stripped_at_head _ _ Hw'). by intros [= <-].
Qed.
End SplitFacts.

Lemma path_candidate_exists (u : pystr) : ∃ cand, path_candidate u cand.
Proof.
  destruct (final_segment_exists slash u) as [seg Hseg].
  destruct (stripped_at_exists question_mark seg) as [cand Hcand].
  exists cand, seg. done.
Qed.

Lemma path_candidate_by_split (u seg cand : pystr) :
  last (split slash u) = Some seg →
  head (split question_mark seg) = Some cand →
  path_candidate u cand.
Proof.
  intros Hseg Hcand. exists seg. split.
  - by apply last_split.
  - by apply head_split.
Qed.

Lemma path_candidate_unique (u c1 c2 : pystr) :
  path_candidate u c1 → path_candidate u c2 → c1 = c2.
Proof.
  intros [s1 [H1 K1]] [s2 [H2 K2]].
  apply final_segment_last in H1, H2. rewrite H1 in H2.
  injection H2 as <-.
  apply stripped_at_head in K1, K2. rewrite K1 in K2. by injection K2.
Qed.

(** ** The steps of the handler *)

Section HandlerFacts.
Variable rt : PyRuntime.

Lemma looks_like_symbol_spec (s : pystr) :
  looks_like_symbol rt s = true ↔ s ≠ [] ∧ alphabetic rt s ∧ length s ≤ 5.
Proof.
  unfold looks_like_symbol, isalpha, alphabetic.
  rewrite !andb_true_iff, Nat.leb_le, Forall_forall.
  destruct s as [|c s].
  - simpl. split; [intros [[? _] _]; discriminate | intros [? _]; congruence].
  - change (str_bool (c :: s)) with true.
    rewrite forallb_forall. split.
    + intros [[_ Ha] Hl]. split; [discriminate|]. split; [|done].
      intros x Hx. apply Ha. by apply list_elem_of_In.
    + intros (_ & Ha & Hl). split; [split; [done|]|done].
      intros x Hx. apply Ha. by apply list_elem_of_In.
Qed.

(** Symbol extraction never raises, and is the query parameter when that
    is a non-empty string, else the path candidate when that looks like a
    symbol, else what the query parameter gave. *)
Lemma resolve_symbol_spec (req : HttpRequest) :
  ∃ cand, path_candidate (url req) cand ∧
    resolve_symbol rt req =
    Return (if not_symbol (symbol_param req)
            then if looks_like_symbol rt cand then Some cand
                 else symbol_param req
            else symbol_param req).
Proof.
  destruct (final_segment_exists slash (url req)) as [seg Hseg].
  destruct (stripped_at_exists question_mark seg) as [cand Hcand].
  exists cand. split; [by exists seg|].
  unfold resolve_symbol. fold (symbol_param req).
  destruct (not_symbol (symbol_param req)); [|reflexivity].
  pose proof (split_nonempty slash (url req)) as Hne.
  destruct (split slash (url req)) as [|p ps] eqn:Hsplit; [congruence|].
  change (0 <? length (p :: ps))%nat with true. cbv iota.
  unfold item_last. rewrite <- Hsplit.
  rewrite (final_segment_last _ _ _ Hseg). simpl.
  unfold item_first. rewrite (stripped_at_head _ _ _ Hcand). simpl.
  by destruct (looks_like_symbol rt cand).
Qed.

Lemma not_symbol_false (o : option pystr) :
  not_symbol o = false ↔ ∃ c s, o = Some (c :: s).
Proof.
  split.
  - destruct o as [[|c s]|]; try discriminate. by exists c, s.
  - by intros (c & s & ->).
Qed.

Lemma looks_like_symbol_not_empty (cand : pystr) :
  looks_like_symbol rt cand = true → not_symbol (Some cand) = false.
Proof. by destruct cand. Qed.

Variable env : Env.

Lemma main_of_unresolved (req : HttpRequest) (o : option pystr) :
  resolve_symbol rt req = Return o → not_symbol o = true →
  main rt env req = missing_symbol_response rt.
Proof.
  intros Hr Ho. unfold main, main_body. rewrite Hr. simpl.
  by destruct o as [[|c s]|].
Qed.

Lemma main_of_resolved (req : HttpRequest) (symbol : pystr) :
  resolve_symbol rt req = Return (Some symbol) → symbol ≠ [] →
  main rt env req =
  try_except (quote rt env symbol) (fun _ => internal_error_response rt).
Proof.
  intros Hr Hs. unfold main, main_body. rewrite Hr. simpl.
  by destruct symbol.
Qed.

Lemma quote_of_raise (symbol : pystr) (e : exn) :
  ticker_info env (upper rt symbol) = Raise e → quote rt env symbol = Raise e.
Proof. intros H. unfold quote. by rewrite H. Qed.

Lemma quote_of_no_price (symbol : pystr) (info : gmap pystr pyval) :
  ticker_info env (upper rt symbol) = Return info →
  current_price info = VNone →
  quote rt env symbol = Return (no_price_response rt (upper rt symbol)).
Proof. intros H Hp. unfold quote. rewrite H. simpl. by rewrite Hp. Qed.

(** The timestamp of a [datetime] is far below the digit limit. *)
Lemma timestamp_within_limit : over_limit (now_timestamp env) = false.
Proof.
  unfold over_limit, int_max_str_digits. apply Z.leb_gt.
  pose proof (now_timestamp_range env) as Hrange.
  assert (10 ^ 12 < 10 ^ 4300)%Z by (apply Z.pow_lt_mono_r; lia).
  lia.
Qed.

(** What [json.dumps] writes, when it writes, is the text [dumps]. *)
Lemma write_items_text (d : list (pystr * jvalue)) (items : list pystr) :
  write_items rt d = Return items → items = List.map (dumps_item rt) d.
Proof.
  revert items. induction d as [|[key v] d IH]; intros items; simpl.
  - by intros [= <-].
  - destruct v as [s|[z|f]]; simpl.
    + destruct (write_items rt d) as [texts|e]; simpl; [|discriminate].
      intros [= <-]. by rewrite (IH texts).
    + unfold int_repr. destruct (over_limit z); simpl; [discriminate|].
      destruct (write_items rt d) as [texts|e]; simpl; [|discriminate].
      intros [= <-]. by rewrite (IH texts).
    + destruct (write_items rt d) as [texts|e]; simpl; [|discriminate].
      intros [= <-]. by rewrite (IH texts).
Qed.

Lemma json_dumps_text (d : list (pystr * jvalue)) (text : pystr) :
  json_dumps rt d = Return text → text = dumps rt d.
Proof.
  unfold json_dumps, dumps.
  destruct (write_items rt d) as [items|e] eqn:Hw; simpl; [|discriminate].
  intros [= <-]. by rewrite (write_items_text d items Hw).
Qed.

(** The dictionary of a successful answer is written unless its price is
    an integer above the digit limit. *)
Lemma json_dumps_response_data (symbol : pystr) (price : number) :
  json_dumps rt (response_data env symbol price) =
  match price with
  | Int z => if over_limit z then Raise limit_error
             else Return (dumps rt (response_data env symbol price))
  | Float _ => Return (dumps rt (response_data env symbol price))
  end.
Proof.
  unfold json_dumps, response_data.
  cbn [write_items write_value bind]. unfold int_repr.
  rewrite timestamp_within_limit.
  destruct price as [z|f]; cbn [bind]; [|reflexivity].
  by destruct (over_limit z).
Qed.

Lemma quote_of_price (symbol : pystr) (info : gmap pystr pyval) :
  ticker_info env (upper rt symbol) = Return info →
  current_price info ≠ VNone →
  quote rt env symbol =
  match round (current_price info) 2 with
  | Return price =>
      if str_raises (current_price info) then Raise limit_error
      else Return (json_response rt (response_data env (upper rt symbol) price) 200)
  | Raise e => Raise e
  end.
Proof.
  intros H Hp. unfold quote. rewrite H. cbn [bind].
  destruct (current_price info) as [|b|z|f|s|l|d] eqn:Hcur; try congruence;
    cbn [is_None round bind]; try reflexivity.
  - unfold format_price. cbn [str_raises bind].
    rewrite json_dumps_response_data.
    by destruct b.
  - unfold format_price. cbn [str_raises].
    destruct (over_limit z) eqn:Hz; cbn [bind]; [reflexivity|].
    by rewrite json_dumps_response_data, Hz.
  - destruct (float_round f 2) as [r|e]; cbn [bind]; [|reflexivity].
    unfold format_price. cbn [str_raises bind].
    by rewrite json_dumps_response_data.
Qed.
End HandlerFacts.

(** The whole handler, by where the symbol comes from. *)
Lemma main_spec (rt : PyRuntime) (env : Env) (req : HttpRequest) :
  ∃ cand, path_candidate (url req) cand ∧
    main rt env req =
    match symbol_param req with
    | Some (c :: v) =>
        try_except (quote rt env (c :: v)) (fun _ => internal_error_response rt)
    | _ =>
        if looks_like_symbol rt cand
        then try_except (quote rt env cand) (fun _ => internal_error_response rt)
        else missing_symbol_response rt
    end.
Proof.
  destruct (resolve_symbol_spec rt req) as (cand & Hcand & Hr).
  exists cand. split; [done|].
  destruct (symbol_param req) as [[|c v]|] eqn:Hp; simpl in Hr.
  - destruct (looks_like_symbol rt cand) eqn:Hl.
    + apply main_of_resolved; [done|]. by destruct cand.
    + by eapply main_of_unresolved.
  - by apply main_of_resolved.
  - destruct (looks_like_symbol rt cand) eqn:Hl.
    + apply main_of_resolved; [done|]. by destruct cand.
    + by eapply main_of_unresolved.
Qed.

(** ** Symbol extraction *)

Lemma resolve_symbol_of_parameter (rt : PyRuntime) (req : HttpRequest) (v : pystr) :
  symbol_param req = Some v → v ≠ [] → resolve_symbol rt req = Return (Some v).
Proof.
  intros Hv Hne.
  destruct (resolve_symbol_spec rt req) as (cand & _ & Hr).
  rewrite Hr, Hv. by destruct v.
Qed.

(** C1, as stated, is refuted: with the query parameter present but empty
    ([?symbol=]) and the URL [https://host/api/stock_quote/MSFT], the handler
    does not keep the parameter: it takes [MSFT] from the path. *)
Lemma C1_present_empty_parameter_not_used :
  ¬ (∀ rt req v, symbol_param req = Some v →
       resolve_symbol rt req = Return (Some v)).
Proof.
  intros H.
  specialize (H ascii_runtime
                (request (Some ""%string) "https://host/api/stock_quote/MSFT") []).
  assert (resolve_symbol ascii_runtime
            (request (Some ""%string) "https://host/api/stock_quote/MSFT")
          = Return (Some (str "MSFT"))) as Hrun by (vm_compute; reflexivity).
  rewrite Hrun in H.
  assert (Return (Some (str "MSFT")) = Return (Some [])) as Habs
    by (apply H; vm_compute; reflexivity).
  vm_compute in Habs. discriminate Habs.
Qed.

(** C1, amended: symbol extraction is ordered, first match winning. A
    'symbol' query parameter that is present and non-empty is the symbol;
    only when it is absent or empty is the final path segment of the URL
    (split on '/', trailing query string stripped) tried, and taken when it
    looks like a symbol. *)
Theorem C1_symbol_extraction_order (rt : PyRuntime) (req : HttpRequest) :
  (∀ v, symbol_param req = Some v → v ≠ [] →
     resolve_symbol rt req = Return (Some v))
  ∧ (not_symbol (symbol_param req) = true →
     ∃ cand, path_candidate (url req) cand ∧
       resolve_symbol rt req =
       Return (if looks_like_symbol rt cand then Some cand
               else symbol_param req)).
Proof.
  split.
  - apply resolve_symbol_of_parameter.
  - intros Hn. destruct (resolve_symbol_spec rt req) as (cand & Hcand & Hr).
    exists cand. split; [done|]. by rewrite Hr, Hn.
Qed.

Lemma C1_symbol_extraction_order_witness :
  resolve_symbol ascii_runtime
    (request (Some "aapl"%string) "https://host/api/stock_quote/MSFT")
  = Return (Some (str "aapl"))
  ∧ ∃ cand,
      path_candidate (str "https://host/api/stock_quote/MSFT") cand ∧
      resolve_symbol ascii_runtime
        (request None "https://host/api/stock_quote/MSFT")
      = Return (if looks_like_symbol ascii_runtime cand then Some cand
                else None).
Proof.
  split.
  - apply (proj1 (C1_symbol_extraction_order ascii_runtime
                    (request (Some "aapl"%string)
                             "https://host/api/stock_quote/MSFT"))).
    + vm_compute; reflexivity.
    + discriminate.
  - apply (proj2 (C1_symbol_extraction_order ascii_runtime
                    (request None "https://host/api/stock_quote/MSFT"))).
    vm_compute; reflexivity.
Defined.

(** C2: with no query parameter, the final path segment is accepted as the
    symbol if and only if it is non-empty, purely alphabetic and at most 5
    characters long; and whenever neither method yields a symbol the
    handler answers 400 with the documented body. *)
Theorem C2_path_validation_and_400 (rt : PyRuntime) (env : Env) (req : HttpRequest) :
  (symbol_param req = None →
   ∀ s, resolve_symbol rt req = Return (Some s) ↔
        path_candidate (url req) s ∧ s ≠ [] ∧ alphabetic rt s ∧ length s ≤ 5)
  ∧ (not_symbol (symbol_param req) = true →
     (∀ cand, path_candidate (url req) cand →
        ¬ (cand ≠ [] ∧ alphabetic rt cand ∧ length cand ≤ 5)) →
     main rt env req =
     {| body := jlit "{'error': 'Stock symbol parameter is required. Use ?symbol=AAPL or /stock_quote/AAPL'}";
        status_code := 400;
        mimetype := str "application/json" |}).
Proof.
  destruct (resolve_symbol_spec rt req) as (cand & Hcand & Hr).
  split.
  - intros Hp s. rewrite Hr, Hp. simpl.
    destruct (looks_like_symbol rt cand) eqn:Hl.
    + split.
      * intros [= <-]. split; [done|]. by apply looks_like_symbol_spec.
      * intros [Hs _]. by rewrite (path_candidate_unique _ _ _ Hs Hcand).
    + split; [discriminate|]. intros [Hs Hok].
      rewrite (path_candidate_unique _ _ _ Hs Hcand) in Hok.
      apply looks_like_symbol_spec in Hok. congruence.
  - intros Hn Hbad.
    assert (looks_like_symbol rt cand = false) as Hl.
    { destruct (looks_like_symbol rt cand) eqn:Hl; [|done].
      apply looks_like_symbol_spec in Hl. by destruct (Hbad cand Hcand). }
    rewrite Hn, Hl in Hr.
    by rewrite (main_of_unresolved rt env req _ Hr Hn).
Qed.

Lemma C2_path_validation_and_400_witness :
  (resolve_symbol ascii_runtime (request None "https://host/api/stock_quote/MSFT")
   = Return (Some (str "MSFT")) ↔
   path_candidate (str "https://host/api/stock_quote/MSFT") (str "MSFT")
   ∧ str "MSFT" ≠ [] ∧ alphabetic ascii_runtime (str "MSFT")
   ∧ length (str "MSFT") ≤ 5)
  ∧ main ascii_runtime (env_of (Return ∅))
      (request None "https://host/api/stock_quote/GOOGLE")
    = {| body := jlit "{'error': 'Stock symbol parameter is required. Use ?symbol=AAPL or /stock_quote/AAPL'}";
         status_code := 400;
         mimetype := str "application/json" |}.
Proof.
  split.
  - apply (proj1 (C2_path_validation_and_400 ascii_runtime (env_of (Return ∅))
                    (request None "https://host/api/stock_quote/MSFT"))).
    vm_compute; reflexivity.
  - apply (proj2 (C2_path_validation_and_400 ascii_runtime (env_of (Return ∅))
                    (request None "https://host/api/stock_quote/GOOGLE"))).
    + vm_compute; reflexivity.
    + intros cand Hcand (_ & _ & Hlen).
      assert (path_candidate (str "https://host/api/stock_quote/GOOGLE")
                (str "GOOGLE")) as Hg.
      { apply (path_candidate_by_split _ (str "GOOGLE")); vm_compute; reflexivity. }
      rewrite (path_candidate_unique _ _ _ Hcand Hg) in Hlen.
      vm_compute in Hlen. lia.
Defined.

(** C9: a query parameter that is present but empty ([?symbol=]) is treated
    exactly like an absent one: the handler falls through to the path
    segment, answers as it would without the parameter, and answers 400
    when the path gives no valid segment. *)
Theorem C9_empty_parameter_like_absent (rt : PyRuntime) (env : Env) (req : HttpRequest) :
  symbol_param req = Some [] →
  main rt env req = main rt env (without_symbol_param req)
  ∧ (∃ cand, path_candidate (url req) cand ∧
       resolve_symbol rt req =
       Return (if looks_like_symbol rt cand then Some cand else Some []))
  ∧ ((∀ cand, path_candidate (url req) cand → looks_like_symbol rt cand = false) →
     main rt env req = missing_symbol_response rt
     ∧ status_code (main rt env req) = 400%Z).
Proof.
  intros Hp.
  destruct (main_spec rt env req) as (cand & Hcand & Hm).
  destruct (main_spec rt env (without_symbol_param req)) as (cand' & Hcand' & Hm').
  rewrite (path_candidate_unique _ _ _ Hcand' Hcand) in Hm'. clear cand' Hcand'.
  assert (symbol_param (without_symbol_param req) = None) as Hp'
    by apply lookup_delete_eq.
  rewrite Hp in Hm. rewrite Hp' in Hm'.
  split; [congruence|]. split.
  - destruct (resolve_symbol_spec rt req) as (c & Hc & Hr).
    exists c. split; [done|]. by rewrite Hr, Hp.
  - intros Hbad. rewrite (Hbad cand Hcand) in Hm. by rewrite Hm.
Qed.

Lemma C9_empty_parameter_like_absent_witness :
  main ascii_runtime (env_of (Return ∅))
    (request (Some ""%string) "https://host/api/stock_quote?symbol=")
  = main ascii_runtime (env_of (Return ∅))
      (without_symbol_param
         (request (Some ""%string) "https://host/api/stock_quote?symbol=")).
Proof.
  refine (proj1 (C9_empty_parameter_like_absent ascii_runtime (env_of (Return ∅))
                   (request (Some ""%string) "https://host/api/stock_quote?symbol=")
                   _)).
  vm_compute; reflexivity.
Defined.

(** C10: the alphabetic / at-most-5 check belongs to the path method only.
    Every non-empty value of the 'symbol' query parameter is the symbol,
    whatever its characters and length; it is upper-cased and handed to the
    provider: the answer is 500 when the provider raises for the upper-cased
    value and the 404 naming the upper-cased value when the provider has no
    price for it, never the 400 of a rejected symbol. *)
Theorem C10_query_parameter_unvalidated (rt : PyRuntime) (env : Env)
    (req : HttpRequest) (v : pystr) :
  symbol_param req = Some v → v ≠ [] →
  resolve_symbol rt req = Return (Some v)
  ∧ main rt env req =
    try_except (quote rt env v) (fun _ => internal_error_response rt)
  ∧ (∀ e, ticker_info env (upper rt v) = Raise e →
       main rt env req = internal_error_response rt)
  ∧ (ticker_info env (upper rt v) = Return ∅ →
       main rt env req = no_price_response rt (upper rt v)).
Proof.
  intros Hv Hne.
  pose proof (resolve_symbol_of_parameter rt req v Hv Hne) as Hr.
  pose proof (main_of_resolved rt env req v Hr Hne) as Hm.
  split; [done|]. split; [done|]. split.
  - intros e He. by rewrite Hm, (quote_of_raise rt env v e He).
  - intros He. by rewrite Hm, (quote_of_no_price rt env v ∅ He).
Qed.

Lemma C10_query_parameter_unvalidated_witness :
  resolve_symbol ascii_runtime
    (request (Some "brk.b-2024!"%string) "https://host/api/stock_quote")
  = Return (Some (str "brk.b-2024!"))
  ∧ main ascii_runtime (env_of (Return ∅))
      (request (Some "brk.b-2024!"%string) "https://host/api/stock_quote")
    = no_price_response ascii_runtime (str "BRK.B-2024!").
Proof.
  destruct (C10_query_parameter_unvalidated ascii_runtime (env_of (Return ∅))
              (request (Some "brk.b-2024!"%string) "https://host/api/stock_quote")
              (str "brk.b-2024!")) as (Hr & _ & _ & H404).
  - vm_compute; reflexivity.
  - discriminate.
  - split; [exact Hr|]. apply H404. reflexivity.
Defined.

(** ** From the resolved symbol to the response *)

Section QuoteFacts.
Variable rt : PyRuntime.
Variable env : Env.

(** The five ways [quote] can go. *)
Lemma quote_cases (symbol : pystr) :
  (∃ e, ticker_info env (upper rt symbol) = Raise e
        ∧ quote rt env symbol = Raise e)
  ∨ (∃ info, ticker_info env (upper rt symbol) = Return info
        ∧ current_price info = VNone
        ∧ quote rt env symbol = Return (no_price_response rt (upper rt symbol)))
  ∨ (∃ info e, ticker_info env (upper rt symbol) = Return info
        ∧ current_price info ≠ VNone
        ∧ round (current_price info) 2 = Raise e
        ∧ quote rt env symbol = Raise e)
  ∨ (∃ info price, ticker_info env (upper rt symbol) = Return info
        ∧ current_price info ≠ VNone
        ∧ round (current_price info) 2 = Return price
        ∧ str_raises (current_price info) = true
        ∧ quote rt env symbol = Raise limit_error)
  ∨ (∃ info price, ticker_info env (upper rt symbol) = Return info
        ∧ current_price info ≠ VNone
        ∧ round (current_price info) 2 = Return price
        ∧ str_raises (current_price info) = false
        ∧ quote rt env symbol =
          Return (json_response rt (response_data env (upper rt symbol) price) 200)).
Proof.
  destruct (ticker_info env (upper rt symbol)) as [info|e] eqn:Hi.
  - right.
    assert (current_price info = VNone ∨ current_price info ≠ VNone) as [Hp|Hp]
      by (destruct (current_price info); (by left) || (by right)).
    + left. exists info. by rewrite (quote_of_no_price rt env symbol info Hi Hp).
    + right. rewrite (quote_of_price rt env symbol info Hi Hp).
      destruct (round (current_price info) 2) as [price|e] eqn:Hround.
      * right. destruct (str_raises (current_price info)) eqn:Hlimit.
        -- left. by exists info, price.
        -- right. by exists info, price.
      * left. by exists info, e.
  - left. exists e. by rewrite (quote_of_raise rt env symbol e Hi).
Qed.

Lemma current_price_None (info : gmap pystr pyval) :
  current_price info = VNone ↔
  truthy (info_get info (str "currentPrice")) = false
  ∧ info_get info (str "regularMarketPrice") = VNone.
Proof.
  unfold current_price, py_or.
  destruct (truthy (info_get info (str "currentPrice"))) eqn:Ht.
  - split; [|intros [? _]; discriminate].
    intros Hn. rewrite Hn in Ht. discriminate.
  - split; [done|]. by intros [_ ?].
Qed.

(** A price that [round] accepts fails to be written exactly when it is an
    integer above the digit limit. *)
Lemma str_raises_of_rounded (v : pyval) (price : number) :
  round v 2 = Return price →
  str_raises v = false ↔ writable v.
Proof.
  unfold writable.
  destruct v as [|b|z|f|s|l|d]; simpl; try discriminate; intros _.
  - split; [intros _ z; discriminate | done].
  - unfold over_limit. rewrite Z.leb_gt. split.
    + intros Hz z' [= <-]. exact Hz.
    + intros Hz. by apply Hz.
  - split; [intros _ z; discriminate | done].
Qed.
End QuoteFacts.


(** ** Normalisation of the symbol *)

(** C3: the resolved symbol is upper-cased before the provider lookup and
    before it is echoed: the answer depends on the provider only through
    what it does for the upper-cased symbol, and the 'symbol' field of a 200
    answer and the symbol inside the 404 message are the upper-cased form. *)
Theorem C3_symbol_uppercased (rt : PyRuntime) (env : Env) (req : HttpRequest)
    (symbol : pystr) :
  resolve_symbol rt req = Return (Some symbol) → symbol ≠ [] →
  (∀ env', ticker_info env' (upper rt symbol) = ticker_info env (upper rt symbol) →
           now_strftime env' = now_strftime env →
           now_timestamp env' = now_timestamp env →
           main rt env' req = main rt env req)
  ∧ (status_code (main rt env req) = 200%Z →
     ∃ price, body (main rt env req) =
       dumps rt [(str "date", JStr (now_strftime env));
                 (str "price", JNum price);
                 (str "symbol", JStr (upper rt symbol));
                 (str "time", JNum (Int (now_timestamp env)))])
  ∧ (status_code (main rt env req) = 404%Z →
     body (main rt env req) =
     dumps rt [(str "error",
                JStr (str "Could not retrieve price for symbol " ++ upper rt symbol))]).
Proof.
  intros Hr Hne. split; [|split].
  - intros env' Hi Hd Ht.
    rewrite !(main_of_resolved rt _ req symbol Hr Hne).
    unfold quote, response_data. by rewrite Hi, Hd, Ht.
  - rewrite (main_of_resolved rt env req symbol Hr Hne).
    destruct (quote_cases rt env symbol)
      as [(e & _ & ->)|[(info & _ & _ & ->)|[(info & e & _ & _ & _ & ->)
         |[(info & price & _ & _ & _ & _ & ->)
          |(info & price & _ & _ & _ & _ & ->)]]]];
      cbn [try_except status_code internal_error_response no_price_response
           json_response]; try discriminate.
    intros _. by exists price.
  - rewrite (main_of_resolved rt env req symbol Hr Hne).
    destruct (quote_cases rt env symbol)
      as [(e & _ & ->)|[(info & _ & _ & ->)|[(info & e & _ & _ & _ & ->)
         |[(info & price & _ & _ & _ & _ & ->)
          |(info & price & _ & _ & _ & _ & ->)]]]];
      cbn [try_except status_code internal_error_response no_price_response
           json_response]; try discriminate.
    done.
Qed.

Lemma C3_symbol_uppercased_witness :
  ∃ price,
    body (main ascii_runtime (env_of (Return (info_of (Some (VInt 5)) None)))
            (request (Some "aapl"%string) "https://host/api/stock_quote"))
    = dumps ascii_runtime
        [(str "date", JStr (str "2024-01-02"));
         (str "price", JNum price);
         (str "symbol", JStr (str "AAPL"));
         (str "time", JNum (Int 1704196800))].
Proof.
  refine (proj1 (proj2 (C3_symbol_uppercased ascii_runtime
            (env_of (Return (info_of (Some (VInt 5)) None)))
            (request (Some "aapl"%string) "https://host/api/stock_quote")
            (str "aapl") _ _)) _).
  - vm_compute; reflexivity.
  - discriminate.
  - vm_compute; reflexivity.
Defined.

(** ** Price resolution *)

(** C4, as stated, is refuted: with [currentPrice] present and equal to 0
    and [regularMarketPrice] equal to 5, the price taken is 5, the fallback. *)
Lemma C4_zero_primary_falls_back :
  ¬ (∀ info p, info !! str "currentPrice" = Some p → current_price info = p).
Proof.
  intros H.
  specialize (H (info_of (Some (VInt 0)) (Some (VInt 5))) (VInt 0)).
  assert (current_price (info_of (Some (VInt 0)) (Some (VInt 5))) = VInt 5) as Hrun
    by (vm_compute; reflexivity).
  rewrite Hrun in H.
  assert (VInt 5 = VInt 0) as Habs by (apply H; vm_compute; reflexivity).
  discriminate Habs.
Qed.

(** The answer when the provider gave a price that [round] accepts. *)
Lemma priced_answer (rt : PyRuntime) (env : Env) (req : HttpRequest)
    (symbol : pystr) (info : gmap pystr pyval) (price : number) :
  resolve_symbol rt req = Return (Some symbol) → symbol ≠ [] →
  ticker_info env (upper rt symbol) = Return info →
  current_price info ≠ VNone →
  round (current_price info) 2 = Return price →
  main rt env req =
  if str_raises (current_price info) then internal_error_response rt
  else json_response rt (response_data env (upper rt symbol) price) 200.
Proof.
  intros Hr Hne Hi Hp Hround.
  rewrite (main_of_resolved rt env req symbol Hr Hne).
  rewrite (quote_of_price rt env symbol info Hi Hp), Hround.
  by destruct (str_raises (current_price info)).
Qed.

(** C4, amended: the primary field [currentPrice] is preferred whenever it
    is present with a true value (a non-zero number): then the price, and
    the price of the 200 answer, come from it and not from the fallback. The
    fallback [regularMarketPrice] is used only when the primary is absent,
    [None] or otherwise false (zero, empty). *)
Theorem C4_primary_price_preferred (rt : PyRuntime) (env : Env)
    (info : gmap pystr pyval) :
  (∀ p, info !! str "currentPrice" = Some p → truthy p = true →
     current_price info = p
     ∧ ∀ req symbol,
         resolve_symbol rt req = Return (Some symbol) → symbol ≠ [] →
         ticker_info env (upper rt symbol) = Return info →
         (status_code (main rt env req) = 200%Z →
          ∃ price, round p 2 = Return price
                   ∧ main rt env req =
                     json_response rt (response_data env (upper rt symbol) price) 200)
         ∧ (∀ price, round p 2 = Return price → writable p →
              main rt env req =
              json_response rt (response_data env (upper rt symbol) price) 200))
  ∧ (current_price info ≠ info_get info (str "currentPrice") →
     truthy (info_get info (str "currentPrice")) = false
     ∧ current_price info = info_get info (str "regularMarketPrice")).
Proof.
  split.
  - intros p Hp Ht.
    assert (current_price info = p) as Hcur.
    { unfold current_price, py_or, info_get. rewrite Hp. simpl. by rewrite Ht. }
    split; [done|].
    intros req symbol Hr Hne Hi.
    assert (current_price info ≠ VNone) as Hsome
      by (rewrite Hcur; intros ->; discriminate).
    split.
    + intros Hs.
      destruct (round p 2) as [price|e] eqn:Hround.
      * exists price. split; [done|].
        rewrite <- Hcur in Hround.
        rewrite (priced_answer rt env req symbol info price Hr Hne Hi Hsome Hround)
          in Hs |- *.
        by destruct (str_raises (current_price info)).
      * rewrite (main_of_resolved rt env req symbol Hr Hne) in Hs.
        rewrite (quote_of_price rt env symbol info Hi Hsome), Hcur, Hround in Hs.
        discriminate Hs.
    + intros price Hround Hw.
      rewrite <- Hcur in Hround, Hw.
      rewrite (priced_answer rt env req symbol info price Hr Hne Hi Hsome Hround).
      by rewrite (proj2 (str_raises_of_rounded _ price Hround) Hw).
  - unfold current_price, py_or.
    destruct (truthy (info_get info (str "currentPrice"))); [congruence|done].
Qed.

Lemma C4_primary_price_preferred_witness :
  current_price (info_of (Some (VInt 7)) (Some (VInt 5))) = VInt 7
  ∧ main ascii_runtime (env_of (Return (info_of (Some (VInt 7)) (Some (VInt 5)))))
      (request (Some "AAPL"%string) "https://host/api/stock_quote")
    = json_response ascii_runtime
        (response_data (env_of (Return (info_of (Some (VInt 7)) (Some (VInt 5)))))
           (str "AAPL") (Int 7)) 200.
Proof.
  destruct (proj1 (C4_primary_price_preferred ascii_runtime
                     (env_of (Return (info_of (Some (VInt 7)) (Some (VInt 5)))))
                     (info_of (Some (VInt 7)) (Some (VInt 5))))
                  (VInt 7)) as [Hcur Hmain].
  - vm_compute; reflexivity.
  - reflexivity.
  - split; [exact Hcur|].
    refine (proj2 (Hmain (request (Some "AAPL"%string) "https://host/api/stock_quote")
                     (str "AAPL") _ _ _) (Int 7) _ _).
    + vm_compute; reflexivity.
    + discriminate.
    + reflexivity.
    + reflexivity.
    + intros z [= <-]. reflexivity.
Defined.

(** ** Missing price *)

(** C5, as stated, is refuted: for [?symbol=AAPL] and a provider result
    whose [currentPrice] is 0 and that has no [regularMarketPrice], the
    primary field does hold a price, and the answer is still 404. *)
Lemma C5_zero_primary_price_is_404 :
  ¬ (∀ rt env req symbol info,
       resolve_symbol rt req = Return (Some symbol) → symbol ≠ [] →
       ticker_info env (upper rt symbol) = Return info →
       (status_code (main rt env req) = 404%Z ↔
        info_get info (str "currentPrice") = VNone
        ∧ info_get info (str "regularMarketPrice") = VNone)).
Proof.
  intros H.
  specialize (H ascii_runtime
                (env_of (Return (info_of (Some (VInt 0)) None)))
                (request (Some "AAPL"%string) "https://host/api/stock_quote")
                (str "AAPL") (info_of (Some (VInt 0)) None)).
  destruct H as [H _].
  - vm_compute; reflexivity.
  - discriminate.
  - reflexivity.
  - assert (info_get (info_of (Some (VInt 0)) None) (str "currentPrice") = VNone)
      as Habs by (apply H; vm_compute; reflexivity).
    vm_compute in Habs. discriminate Habs.
Qed.

(** C5, amended: for a resolved symbol the handler answers 404 with body
    [{"error": "Could not retrieve price for symbol <SYMBOL>"}] (the
    upper-cased symbol interpolated) if and only if the provider returns a
    result in which the primary field is absent, [None] or otherwise false
    (such as zero) and the fallback field is absent or [None]. *)
Theorem C5_missing_price_404 (rt : PyRuntime) (env : Env) (req : HttpRequest)
    (symbol : pystr) :
  resolve_symbol rt req = Return (Some symbol) → symbol ≠ [] →
  let no_price :=
    ∃ info, ticker_info env (upper rt symbol) = Return info
            ∧ truthy (info_get info (str "currentPrice")) = false
            ∧ info_get info (str "regularMarketPrice") = VNone in
  (status_code (main rt env req) = 404%Z ↔ no_price)
  ∧ (main rt env req =
     {| body := dumps rt [(str "error",
                           JStr (str "Could not retrieve price for symbol "
                                 ++ upper rt symbol))];
        status_code := 404;
        mimetype := str "application/json" |} ↔ no_price).
Proof.
  intros Hr Hne no_price.
  rewrite (main_of_resolved rt env req symbol Hr Hne).
  assert (no_price →
          quote rt env symbol = Return (no_price_response rt (upper rt symbol)))
    as Hquote.
  { intros (info & Hi & Hp). apply (quote_of_no_price rt env symbol info Hi).
    by apply current_price_None. }
  assert (status_code (try_except (quote rt env symbol)
                         (fun _ => internal_error_response rt)) = 404%Z
          → no_price) as Hstatus.
  { destruct (quote_cases rt env symbol)
      as [(e & _ & ->)|[(info & Hi & Hp & ->)|[(info & e & _ & _ & _ & ->)
         |[(info & price & _ & _ & _ & _ & ->)
          |(info & price & _ & _ & _ & _ & ->)]]]];
      cbn [try_except status_code internal_error_response no_price_response
           json_response]; try discriminate.
    intros _. exists info. split; [done|]. by apply current_price_None. }
  split; split.
  - exact Hstatus.
  - intros Hn. by rewrite (Hquote Hn).
  - intros Hm. apply Hstatus. by rewrite Hm.
  - intros Hn. by rewrite (Hquote Hn).
Qed.

Lemma C5_missing_price_404_witness :
  main ascii_runtime (env_of (Return (info_of None None)))
    (request None "https://host/api/stock_quote/msft")
  = {| body := jlit "{'error': 'Could not retrieve price for symbol MSFT'}";
       status_code := 404;
       mimetype := str "application/json" |}.
Proof.
  refine (proj2 (proj2 (C5_missing_price_404 ascii_runtime
            (env_of (Return (info_of None None)))
            (request None "https://host/api/stock_quote/msft")
            (str "msft") _ _)) _).
  - vm_compute; reflexivity.
  - discriminate.
  - exists ∅. repeat split.
Defined.

(** ** Failures *)

(** C6: every error raised inside the handler -- by the provider lookup or
    while the answer is formatted -- is caught and answered with status 500
    and exactly the body [{"error": "Internal server error occurred"}]; the
    answer is the same whatever the error was, so its detail is not in it. *)
Theorem C6_errors_become_500 (rt : PyRuntime) (env : Env) (req : HttpRequest) :
  let internal_error :=
    {| body := jlit "{'error': 'Internal server error occurred'}";
       status_code := 500;
       mimetype := str "application/json" |} in
  (∀ e, main_body rt env req = Raise e → main rt env req = internal_error)
  ∧ (∀ symbol e,
       resolve_symbol rt req = Return (Some symbol) → symbol ≠ [] →
       ticker_info env (upper rt symbol) = Raise e →
       main rt env req = internal_error)
  ∧ (∀ symbol info e,
       resolve_symbol rt req = Return (Some symbol) → symbol ≠ [] →
       ticker_info env (upper rt symbol) = Return info →
       current_price info ≠ VNone →
       round (current_price info) 2 = Raise e →
       main rt env req = internal_error).
Proof.
  intros internal_error. split; [|split].
  - intros e He. unfold main. by rewrite He.
  - intros symbol e Hr Hne Hi.
    rewrite (main_of_resolved rt env req symbol Hr Hne).
    by rewrite (quote_of_raise rt env symbol e Hi).
  - intros symbol info e Hr Hne Hi Hp Hround.
    rewrite (main_of_resolved rt env req symbol Hr Hne).
    rewrite (quote_of_price rt env symbol info Hi Hp). by rewrite Hround.
Qed.

Lemma C6_errors_become_500_witness :
  main ascii_runtime (env_of (Raise (Exception (str "HTTP Error 429: secret"))))
    (request (Some "AAPL"%string) "https://host/api/stock_quote")
  = {| body := jlit "{'error': 'Internal server error occurred'}";
       status_code := 500;
       mimetype := str "application/json" |}
  ∧ main ascii_runtime
      (env_of (Return (info_of (Some (VStr (str "n/a"))) None)))
      (request (Some "AAPL"%string) "https://host/api/stock_quote")
    = {| body := jlit "{'error': 'Internal server error occurred'}";
         status_code := 500;
         mimetype := str "application/json" |}.
Proof.
  split.
  - refine (proj1 (proj2 (C6_errors_become_500 ascii_runtime
              (env_of (Raise (Exception (str "HTTP Error 429: secret"))))
              (request (Some "AAPL"%string) "https://host/api/stock_quote")))
            (str "AAPL") (Exception (str "HTTP Error 429: secret")) _ _ _).
    + vm_compute; reflexivity.
    + discriminate.
    + reflexivity.
  - refine (proj2 (proj2 (C6_errors_become_500 ascii_runtime
              (env_of (Return (info_of (Some (VStr (str "n/a"))) None)))
              (request (Some "AAPL"%string) "https://host/api/stock_quote")))
            (str "AAPL") (info_of (Some (VStr (str "n/a"))) None)
            (no_round "str") _ _ _ _ _).
    + vm_compute; reflexivity.
    + discriminate.
    + reflexivity.
    + vm_compute. discriminate.
    + vm_compute; reflexivity.
Defined.

(** ** The shape of every response *)

(** C8: whatever the request and whatever the provider does, the response
    has a status among 200, 400, 404 and 500, mimetype [application/json]
    and one of the documented bodies: [{date, price, symbol, time}] with
    200, [{error}] with 400, 404 and 500. *)
Theorem C8_response_shapes (rt : PyRuntime) (env : Env) (req : HttpRequest) :
  mimetype (main rt env req) = str "application/json"
  ∧ ((status_code (main rt env req) = 200%Z
      ∧ ∃ date price symbol time,
          body (main rt env req) =
          dumps rt [(str "date", JStr date);
                    (str "price", JNum price);
                    (str "symbol", JStr symbol);
                    (str "time", JNum (Int time))])
     ∨ ((status_code (main rt env req) = 400%Z
         ∨ status_code (main rt env req) = 404%Z
         ∨ status_code (main rt env req) = 500%Z)
        ∧ ∃ message,
            body (main rt env req) = dumps rt [(str "error", JStr message)])).
Proof.
  assert (∀ symbol,
    let r := try_except (quote rt env symbol)
               (fun _ => internal_error_response rt) in
    mimetype r = str "application/json"
    ∧ ((status_code r = 200%Z
        ∧ ∃ date price symbol time,
            body r = dumps rt [(str "date", JStr date);
                               (str "price", JNum price);
                               (str "symbol", JStr symbol);
                               (str "time", JNum (Int time))])
       ∨ ((status_code r = 400%Z ∨ status_code r = 404%Z ∨ status_code r = 500%Z)
          ∧ ∃ message, body r = dumps rt [(str "error", JStr message)]))) as Hq.
  { intros symbol.
    destruct (quote_cases rt env symbol)
      as [(e & _ & ->)|[(info & _ & _ & ->)|[(info & e & _ & _ & _ & ->)
         |[(info & price & _ & _ & _ & _ & ->)
          |(info & price & _ & _ & _ & _ & ->)]]]];
      cbn [try_except]; (split; [reflexivity|]).
    - right. split; [by right; right|]. by eexists.
    - right. split; [by right; left|]. by eexists.
    - right. split; [by right; right|]. by eexists.
    - right. split; [by right; right|]. by eexists.
    - left. split; [reflexivity|]. by do 4 eexists. }
  destruct (main_spec rt env req) as (cand & _ & ->).
  destruct (symbol_param req) as [[|c v]|].
  - destruct (looks_like_symbol rt cand); [apply Hq|].
    split; [reflexivity|]. right. split; [by left|]. by eexists.
  - apply Hq.
  - destruct (looks_like_symbol rt cand); [apply Hq|].
    split; [reflexivity|]. right. split; [by left|]. by eexists.
Qed.

(** ** Rounding of the price *)

Lemma div_half_even_near (a b : Z) :
  (0 < b → Z.abs (2 * a - 2 * b * div_half_even a b) ≤ b)%Z.
Proof.
  intros Hb. unfold div_half_even.
  pose proof (Z.div_mod a b ltac:(lia)) as Hdiv.
  pose proof (Z.mod_pos_bound a b Hb) as Hmod.
  destruct (Z.compare_spec (2 * (a mod b)) b) as [Heq|Hlt|Hgt];
    [destruct (Z.even (a / b))|..]; nia.
Qed.

Lemma div_half_even_tie (a b : Z) :
  (0 < b)%Z → (2 * (a mod b) = b)%Z → Z.even (div_half_even a b) = true.
Proof.
  intros Hb Htie. unfold div_half_even.
  rewrite Htie, Z.compare_refl.
  destruct (Z.even (a / b)) eqn:Heven; [done|].
  rewrite Z.even_add, Heven. reflexivity.
Qed.

Lemma scaled_nearest (m : positive) (e : Z) :
  nearest_hundredths m e (scaled 100 m e).
Proof.
  unfold nearest_hundredths, scaled.
  destruct (Z.leb_spec 0 e) as [He|He].
  - rewrite (Z.max_l e 0), (Z.max_r (- e) 0) by lia.
    change (2 ^ 0)%Z with 1%Z. lia.
  - rewrite (Z.max_r e 0), (Z.max_l (- e) 0) by lia.
    change (2 ^ 0)%Z with 1%Z.
    assert (0 < 2 ^ (- e))%Z as Hpow by (apply Z.pow_pos_nonneg; lia).
    pose proof (div_half_even_near (100 * Z.pos m) (2 ^ (- e)) Hpow). lia.
Qed.

Lemma round_float_finite (s : bool) (m : positive) (e : Z) (price : number) :
  round (VFloat (S754_finite s m e)) 2 = Return price →
  price = Float (b64_of_ratio s (scaled 100 m e) 100).
Proof.
  unfold round, float_round. change (10 ^ Z.of_nat 2)%Z with 100%Z.
  destruct (b64_of_ratio s (scaled 100 m e) 100); simpl; congruence.
Qed.

Lemma div_half_even_nonneg (a b : Z) :
  (0 ≤ a)%Z → (0 < b)%Z → (0 ≤ div_half_even a b)%Z.
Proof.
  intros Ha Hb. unfold div_half_even.
  pose proof (Z.div_pos a b Ha Hb).
  destruct (2 * (a mod b) ?= b)%Z; [destruct (Z.even (a / b))|..]; lia.
Qed.

Lemma scaled_nonneg (k : Z) (m : positive) (e : Z) :
  (0 ≤ k)%Z → (0 ≤ scaled k m e)%Z.
Proof.
  intros Hk. unfold scaled. destruct (Z.leb_spec 0 e) as [He|He].
  - assert (0 < 2 ^ e)%Z by (apply Z.pow_pos_nonneg; lia). nia.
  - apply div_half_even_nonneg; [nia|]. apply Z.pow_pos_nonneg; lia.
Qed.

(** ** Reading a decimal back as a binary64 number *)

Section BinaryFacts.
#[local] Open Scope Z_scope.

(** The exponent chosen brackets the quotient. *)
Lemma exponent_bracket (N d : Z) :
  0 < N → 0 < d →
  let k1 := Z.log2 N - Z.log2 d - 52 in
  let k2 := if N <? d * 2 ^ (k1 + 52) then k1 - 1 else k1 in
  (0 ≤ k2 → 2 ^ 52 * (d * 2 ^ k2) ≤ N < 2 ^ 53 * (d * 2 ^ k2))
  ∧ (k2 < 0 → N < 2 ^ 52 * d).
Proof.
  intros HN Hd k1 k2.
  destruct (Z.log2_spec N HN) as [HNlo HNhi].
  destruct (Z.log2_spec d Hd) as [Hdlo Hdhi].
  pose proof (Z.log2_nonneg N) as Ha. pose proof (Z.log2_nonneg d) as Hb.
  set (a := Z.log2 N) in *. set (b := Z.log2 d) in *.
  replace (Z.succ a) with (a + 1) in HNhi by lia.
  replace (Z.succ b) with (b + 1) in Hdhi by lia.
  rewrite (Z.pow_add_r 2 b 1) in Hdhi by lia. change (2 ^ 1) with 2 in Hdhi.
  assert (0 < 2 ^ b) as Hpb by (apply Z.pow_pos_nonneg; lia).
  assert (a = k1 + 52 + b) as Hab by (unfold k1; lia).
  set (c := 2 ^ 52) in *.
  assert (0 < c) as Hc by (unfold c; lia).
  assert (2 ^ 53 = 2 * c) as H53 by (unfold c; lia).
  rewrite H53.
  subst k2. destruct (Z.ltb_spec N (d * 2 ^ (k1 + 52))) as [Ht|Ht].
  - split.
    + intros Hk.
      assert (0 < 2 ^ (k1 - 1)) as Hp by (apply Z.pow_pos_nonneg; lia).
      assert (2 ^ (k1 + 52) = 2 * c * 2 ^ (k1 - 1)) as Hpow.
      { replace (k1 + 52) with (1 + 52 + (k1 - 1)) by lia.
        rewrite !Z.pow_add_r by lia. reflexivity. }
      assert (2 ^ a = c * 2 ^ (k1 - 1) * (2 ^ b * 2)) as Hpa.
      { rewrite Hab. replace (k1 + 52 + b) with (52 + (k1 - 1) + (b + 1)) by lia.
        rewrite !Z.pow_add_r by lia. reflexivity. }
      rewrite Hpow in Ht. rewrite Hpa in HNlo.
      set (P := 2 ^ (k1 - 1)) in *. set (Q := 2 ^ b) in *. clearbody P Q c.
      split; [|nia].
      assert (c * P * d ≤ c * P * (Q * 2)) by (apply Z.mul_le_mono_nonneg_l; nia).
      nia.
    + intros Hk.
      destruct (Z.lt_ge_cases (k1 + 52) 0) as [Hneg|Hpos].
      * rewrite (Z.pow_neg_r 2 (k1 + 52)) in Ht by lia. lia.
      * assert (2 ^ (k1 + 52) ≤ 2 ^ 52) as Hle by (apply Z.pow_le_mono_r; lia).
        fold c in Hle. set (P := 2 ^ (k1 + 52)) in *. clearbody P c. nia.
  - split.
    + intros Hk.
      assert (0 < 2 ^ k1) as Hp by (apply Z.pow_pos_nonneg; lia).
      assert (2 ^ (k1 + 52) = c * 2 ^ k1) as Hpow.
      { replace (k1 + 52) with (52 + k1) by lia.
        rewrite Z.pow_add_r by lia. reflexivity. }
      assert (2 ^ (a + 1) = 2 * c * 2 ^ k1 * 2 ^ b) as Hpa.
      { rewrite Hab. replace (k1 + 52 + b + 1) with (1 + 52 + k1 + b) by lia.
        rewrite !Z.pow_add_r by lia. reflexivity. }
      rewrite Hpow in Ht. rewrite Hpa in HNhi.
      set (P := 2 ^ k1) in *. set (Q := 2 ^ b) in *. clearbody P Q c.
      split; [nia|].
      assert (2 * c * P * Q ≤ 2 * c * P * d) by (apply Z.mul_le_mono_nonneg_l; nia).
      nia.
    + intros Hk.
      assert (2 ^ (a + 1) ≤ 2 ^ (52 + b)) as Hle
        by (apply Z.pow_le_mono_r; lia).
      rewrite (Z.pow_add_r 2 52 b) in Hle by lia. fold c in Hle.
      set (Q := 2 ^ b) in *. clearbody Q c.
      assert (c * Q ≤ c * d) by (apply Z.mul_le_mono_nonneg_l; lia).
      lia.
Qed.

(** The mantissa found at the chosen exponent has 53 bits, or fewer at the
    smallest exponent. *)
Lemma mantissa_range (N d k2 : Z) :
  0 < N → 0 < d →
  (0 ≤ k2 → 2 ^ 52 * (d * 2 ^ k2) ≤ N < 2 ^ 53 * (d * 2 ^ k2)) →
  (k2 < 0 → N < 2 ^ 52 * d) →
  let k := Z.max 0 k2 in
  let m := div_half_even N (d * 2 ^ k) in
  Z.abs (2 * N - 2 * (d * 2 ^ k) * m) ≤ d * 2 ^ k
  ∧ ((0 ≤ k2 ∧ 2 ^ 52 ≤ m ≤ 2 ^ 53) ∨ (k = 0 ∧ 0 ≤ m ≤ 2 ^ 52)).
Proof.
  intros HN Hd Hnormal Hsub k m.
  assert (0 ≤ k) as Hk by (unfold k; lia).
  assert (0 < 2 ^ k) as Hpk by (apply Z.pow_pos_nonneg; lia).
  assert (0 < d * 2 ^ k) as HB by nia.
  pose proof (div_half_even_near N (d * 2 ^ k) HB) as Hnear.
  fold m in Hnear. split; [exact Hnear|].
  assert (2 ^ 53 = 2 * 2 ^ 52) as H53 by lia.
  rewrite H53 in *. set (c := 2 ^ 52) in *.
  assert (0 < c) as Hc by (unfold c; lia).
  destruct (Z.lt_ge_cases k2 0) as [Hneg|Hpos].
  - right. assert (k = 0) as Hk0 by (unfold k; lia).
    split; [done|]. specialize (Hsub Hneg).
    rewrite Hk0 in Hnear. change (2 ^ 0) with 1 in Hnear.
    clearbody m c. clear Hnormal. nia.
  - left. split; [done|]. specialize (Hnormal Hpos).
    assert (k = k2) as Hkk by (unfold k; lia). rewrite <- Hkk in Hnormal.
    set (B := d * 2 ^ k) in *. clearbody m c B. clear Hsub. nia.
Qed.

Lemma b64_of_ratio_nearest (s : bool) (n d : Z) :
  0 ≤ n → 0 < d →
  match b64_of_ratio s n d with
  | S754_infinity s' => s' = s
  | r => b64_nearest s n d r
  end.
Proof.
  intros Hn Hd. unfold b64_of_ratio.
  destruct (Z.leb_spec n 0) as [Hn0|Hn0]; cbn [orb].
  { assert (n = 0) as -> by lia. cbn [b64_nearest]. split; [done|lia]. }
  destruct (Z.leb_spec d 0) as [?|_]; [lia|].
  assert (0 < 2 ^ 1074) as Hp1074 by (apply Z.pow_pos_nonneg; lia).
  set (N := n * 2 ^ 1074).
  assert (0 < N) as HN by (unfold N; nia).
  destruct (exponent_bracket N d HN Hd) as [Hnormal Hsub].
  cbv zeta in Hnormal, Hsub.
  set (k2 := if N <? d * 2 ^ (Z.log2 N - Z.log2 d - 52 + 52)
             then Z.log2 N - Z.log2 d - 52 - 1
             else Z.log2 N - Z.log2 d - 52) in *.
  destruct (mantissa_range N d k2 HN Hd Hnormal Hsub) as [Hnear Hm].
  cbv zeta in Hnear, Hm.
  set (k := Z.max 0 k2) in *.
  assert (0 ≤ k) as Hk by (unfold k; lia).
  assert (0 < 2 ^ k) as Hpk by (apply Z.pow_pos_nonneg; lia).
  set (m := div_half_even N (d * 2 ^ k)) in *.
  clearbody m. clear Hnormal Hsub.
  destruct (Z.eqb_spec m (2 ^ 53)) as [Hm53|Hm53].
  - (* the mantissa rounded up to 2^53 *)
    change (2 ^ 52 =? 0) with false. cbv iota.
    destruct (Z.ltb_spec 2045 (k + 1)) as [Hover|Hover]; [done|].
    cbn [b64_nearest]. split; [done|].
    change (Z.pos (Z.to_pos (2 ^ 52))) with (2 ^ 52).
    replace (k + 1 - 1074 + 1074) with (k + 1) by lia.
    rewrite (Z.pow_add_r 2 k 1) by lia. change (2 ^ 1) with 2.
    split.
    + left. lia.
    + fold N. rewrite Hm53 in Hnear. set (P := 2 ^ k) in *. clearbody P.
      assert (0 < d * P) by nia.
      replace (2 * (2 ^ 52 * (P * 2) * d)) with (2 * (d * P) * 2 ^ 53) by lia.
      replace (P * 2 * d) with (2 * (d * P)) by lia. lia.
  - destruct (Z.eqb_spec m 0) as [Hm0|Hm0].
    + cbn [b64_nearest]. split; [done|]. fold N.
      destruct Hm as [(_ & ?)|(Hk0 & _)]; [lia|].
      rewrite Hk0, Hm0 in Hnear. change (2 ^ 0) with 1 in Hnear. lia.
    + destruct (Z.ltb_spec 2045 k) as [Hover|Hover]; [done|].
      cbn [b64_nearest]. split; [done|].
      rewrite Z2Pos.id by (destruct Hm as [(_ & ?)|(_ & ?)]; lia).
      replace (k - 1074 + 1074) with k by lia.
      split.
      * destruct Hm as [(? & ?)|(Hk0 & ?)].
        -- left. lia.
        -- destruct (Z.eq_dec m (2 ^ 52)); [left | right]; lia.
      * fold N. replace (2 * (m * 2 ^ k * d)) with (2 * (d * 2 ^ k) * m) by lia.
        replace (2 ^ k * d) with (d * 2 ^ k) by lia. exact Hnear.
Qed.
End BinaryFacts.

(** A finite float price rounds to a binary64 number closest to the
    closest multiple of 0.01. *)
Lemma round_float_nearest (s : bool) (m : positive) (e : Z) (price : number) :
  round (VFloat (S754_finite s m e)) 2 = Return price →
  ∃ h r, price = Float r ∧ (0 ≤ h)%Z ∧ nearest_hundredths m e h
         ∧ b64_nearest s h 100 r.
Proof.
  intros Hround.
  pose proof (round_float_finite s m e price Hround) as ->.
  exists (scaled 100 m e), (b64_of_ratio s (scaled 100 m e) 100).
  split; [done|].
  assert (0 ≤ scaled 100 m e)%Z as Hh by (apply scaled_nonneg; lia).
  split; [done|]. split; [apply scaled_nearest|].
  pose proof (b64_of_ratio_nearest s (scaled 100 m e) 100 Hh ltac:(lia)) as Hnear.
  unfold round, float_round in Hround.
  change (10 ^ Z.of_nat 2)%Z with 100%Z in Hround.
  destruct (b64_of_ratio s (scaled 100 m e) 100); try exact Hnear.
  discriminate Hround.
Qed.

(** C7: on a resolvable price the 'price' field of the 200 answer is the
    provider price rounded to 2 decimal places: an integer price as it is,
    a finite float price as a binary64 number closest to the closest
    multiple of 0.01. A provider price of 142.3456, the binary64 number
    5008340555608044 * 2^-45, gives 142.35, the binary64 number
    5008495366845235 * 2^-45. The answer is this 200 answer whenever the
    price can be written, that is unless it is an integer of more than
    4300 digits. *)
Theorem C7_price_rounded (rt : PyRuntime) (env : Env) (req : HttpRequest)
    (symbol : pystr) (info : gmap pystr pyval) (price : number) :
  resolve_symbol rt req = Return (Some symbol) → symbol ≠ [] →
  ticker_info env (upper rt symbol) = Return info →
  current_price info ≠ VNone →
  round (current_price info) 2 = Return price →
  let answer :=
    {| body := dumps rt [(str "date", JStr (now_strftime env));
                         (str "price", JNum price);
                         (str "symbol", JStr (upper rt symbol));
                         (str "time", JNum (Int (now_timestamp env)))];
       status_code := 200;
       mimetype := str "application/json" |} in
  (status_code (main rt env req) = 200%Z → main rt env req = answer)
  ∧ (writable (current_price info) → main rt env req = answer)
  ∧ (∀ z, current_price info = VInt z → price = Int z)
  ∧ (∀ s m e, current_price info = VFloat (S754_finite s m e) →
       ∃ h r, price = Float r ∧ (0 ≤ h)%Z ∧ nearest_hundredths m e h
              ∧ b64_nearest s h 100 r)
  ∧ (current_price info = VFloat (S754_finite false 5008340555608044 (-45)) →
       price = Float (S754_finite false 5008495366845235 (-45))).
Proof.
  intros Hr Hne Hi Hp Hround answer.
  pose proof (priced_answer rt env req symbol info price Hr Hne Hi Hp Hround) as Hmain.
  split; [|split; [|split; [|split]]].
  - rewrite Hmain. by destruct (str_raises (current_price info)).
  - intros Hw. rewrite Hmain.
    by rewrite (proj2 (str_raises_of_rounded _ price Hround) Hw).
  - intros z Hz. rewrite Hz in Hround. simpl in Hround. congruence.
  - intros s m e Hf. rewrite Hf in Hround. by apply round_float_nearest.
  - intros Hf. rewrite Hf in Hround.
    vm_compute in Hround. by injection Hround as <-.
Qed.

Lemma C7_price_rounded_witness :
  main ascii_runtime
    (env_of (Return (info_of
       (Some (VFloat (S754_finite false 5008340555608044 (-45)))) None)))
    (request (Some "AAPL"%string) "https://host/api/stock_quote")
  = {| body := dumps ascii_runtime
                 [(str "date", JStr (str "2024-01-02"));
                  (str "price",
                   JNum (Float (S754_finite false 5008495366845235 (-45))));
                  (str "symbol", JStr (str "AAPL"));
                  (str "time", JNum (Int 1704196800))];
       status_code := 200;
       mimetype := str "application/json" |}.
Proof.
  refine (proj1 (proj2 (C7_price_rounded ascii_runtime
            (env_of (Return (info_of
               (Some (VFloat (S754_finite false 5008340555608044 (-45)))) None)))
            (request (Some "AAPL"%string) "https://host/api/stock_quote")
            (str "AAPL")
            (info_of (Some (VFloat (S754_finite false 5008340555608044 (-45)))) None)
            (Float (S754_finite false 5008495366845235 (-45))) _ _ _ _ _)) _).
  - vm_compute; reflexivity.
  - discriminate.
  - reflexivity.
  - vm_compute. discriminate.
  - vm_compute; reflexivity.
  - intros z Hz. vm_compute in Hz. discriminate Hz.
Defined.

(** * Further properties of the handler *)

(** ** Which status, when *)

Section StatusFacts.
Variable rt : PyRuntime.
Variable env : Env.

(** What [main] answers once a symbol is in hand. *)
Lemma handled_cases (symbol : pystr) :
  let r := try_except (quote rt env symbol)
             (fun _ => internal_error_response rt) in
  r = internal_error_response rt
  ∨ r = no_price_response rt (upper rt symbol)
  ∨ ∃ price, r = json_response rt (response_data env (upper rt symbol) price) 200.
Proof.
  destruct (quote_cases rt env symbol)
    as [(e & _ & ->)|[(info & _ & _ & ->)|[(info & e & _ & _ & _ & ->)
       |[(info & price & _ & _ & _ & _ & ->)
        |(info & price & _ & _ & _ & _ & ->)]]]]; cbn [try_except].
  - by left.
  - right. by left.
  - by left.
  - by left.
  - right. right. by exists price.
Qed.

Lemma handled_status_not_400 (symbol : pystr) :
  status_code (try_except (quote rt env symbol)
                 (fun _ => internal_error_response rt)) ≠ 400%Z.
Proof.
  destruct (handled_cases symbol) as [->|[->|[price ->]]];
    cbn [status_code internal_error_response no_price_response json_response];
    lia.
Qed.

(** Every response is one of the four the source builds. *)
Lemma main_response_cases (req : HttpRequest) :
  main rt env req = missing_symbol_response rt
  ∨ main rt env req = internal_error_response rt
  ∨ (∃ symbol, main rt env req = no_price_response rt (upper rt symbol))
  ∨ (∃ symbol price,
       main rt env req =
       json_response rt (response_data env (upper rt symbol) price) 200).
Proof.
  destruct (main_spec rt env req) as (cand & _ & ->).
  assert (∀ symbol,
    let r := try_except (quote rt env symbol)
               (fun _ => internal_error_response rt) in
    r = missing_symbol_response rt
    ∨ r = internal_error_response rt
    ∨ (∃ symbol, r = no_price_response rt (upper rt symbol))
    ∨ (∃ symbol price,
         r = json_response rt (response_data env (upper rt symbol) price) 200))
    as Hq.
  { intros symbol. destruct (handled_cases symbol) as [->|[->|[price ->]]].
    - right. by left.
    - right. right. left. by exists symbol.
    - right. right. right. by exists symbol, price. }
  destruct (symbol_param req) as [[|c v]|]; [| apply Hq |];
    (destruct (looks_like_symbol rt cand); [apply Hq | by left]).
Qed.
End StatusFacts.

(** X1: symbol extraction cannot fail. [url.split('/')] is never empty, so
    the guard [len(url_parts) > 0] always holds and neither [url_parts[-1]]
    nor [split('?')[0]] raises: whatever the request, lines 18-31 end with
    a symbol or with none, never with an exception. *)
Theorem resolve_symbol_never_raises (rt : PyRuntime) (req : HttpRequest) :
  (0 < length (split slash (url req)))
  ∧ ∃ symbol, resolve_symbol rt req = Return symbol
              ∧ (symbol = symbol_param req
                 ∨ ∃ cand, symbol = Some cand ∧ cand ≠ []
                           ∧ (slash ∉ cand) ∧ (question_mark ∉ cand)).
Proof.
  split.
  - pose proof (split_nonempty slash (url req)).
    destruct (split slash (url req)); [done | simpl; lia].
  - destruct (resolve_symbol_spec rt req) as (cand & (seg & _ & Hq & _) & ->).
    eexists. split; [reflexivity|].
    destruct (not_symbol (symbol_param req)); [|by left].
    destruct (looks_like_symbol rt cand) eqn:Hl; [|by left].
    right. exists cand. split; [done|].
    apply looks_like_symbol_spec in Hl as (Hne & Ha & _).
    unfold alphabetic in Ha. rewrite Forall_forall in Ha.
    split; [done|].
    split; intros Hin; apply Ha in Hin; vm_compute in Hin; discriminate.
Qed.

(** X2: the answer is 400 exactly when the query parameter is absent or
    empty and the path candidate does not look like a symbol; the provider
    and the clock then play no part in the answer. *)
Theorem status_400_iff (rt : PyRuntime) (env : Env) (req : HttpRequest) :
  (status_code (main rt env req) = 400%Z ↔
   not_symbol (symbol_param req) = true
   ∧ ∀ cand, path_candidate (url req) cand → looks_like_symbol rt cand = false)
  ∧ (status_code (main rt env req) = 400%Z →
     ∀ env', main rt env' req = main rt env req).
Proof.
  assert (status_code (main rt env req) = 400%Z →
          not_symbol (symbol_param req) = true
          ∧ ∀ cand, path_candidate (url req) cand →
                    looks_like_symbol rt cand = false) as Hfwd.
  { destruct (main_spec rt env req) as (cand & Hcand & ->).
    intros Hs.
    assert (looks_like_symbol rt cand = false ∧ not_symbol (symbol_param req) = true)
      as [Hl Hn].
    { destruct (symbol_param req) as [[|c v]|];
        try (by apply handled_status_not_400 in Hs);
        (destruct (looks_like_symbol rt cand);
         [by apply handled_status_not_400 in Hs | done]). }
    split; [done|]. intros cand' Hcand'.
    by rewrite (path_candidate_unique _ _ _ Hcand' Hcand). }
  assert (∀ env0,
            not_symbol (symbol_param req) = true →
            (∀ cand, path_candidate (url req) cand →
                     looks_like_symbol rt cand = false) →
            main rt env0 req = missing_symbol_response rt) as Hbwd.
  { intros env0 Hn Hbad.
    destruct (resolve_symbol_spec rt req) as (cand & Hcand & Hr).
    rewrite Hn, (Hbad cand Hcand) in Hr.
    by apply (main_of_unresolved rt env0 req _ Hr). }
  split; [split|].
  - exact Hfwd.
  - intros [Hn Hbad]. by rewrite (Hbwd env Hn Hbad).
  - intros Hs env'. destruct (Hfwd Hs) as [Hn Hbad].
    by rewrite (Hbwd env Hn Hbad), (Hbwd env' Hn Hbad).
Qed.

(** A price that [round] accepts fails to be written exactly when it is an
    integer of more than 4300 digits. *)
Lemma str_raises_true_of_rounded (v : pyval) (price : number) :
  round v 2 = Return price →
  str_raises v = true ↔
  ∃ z, v = VInt z ∧ (10 ^ int_max_str_digits ≤ Z.abs z)%Z.
Proof.
  destruct v as [|b|z|f|s|l|d]; simpl; try discriminate; intros _.
  - split; [discriminate | by intros (z & ? & _)].
  - unfold over_limit. rewrite Z.leb_le. split.
    + intros Hz. by exists z.
    + by intros (z' & [= <-] & Hz).
  - split; [discriminate | by intros (z & ? & _)].
Qed.

(** X3: the answer is 500 exactly when a symbol was resolved and either the
    provider raised for its upper-cased form, or the price found is one
    that [round] refuses, or it is an integer of more than 4300 digits,
    which cannot be turned into text; symbol extraction alone never leads
    to 500. *)
Theorem status_500_iff (rt : PyRuntime) (env : Env) (req : HttpRequest) :
  status_code (main rt env req) = 500%Z ↔
  ∃ symbol, resolve_symbol rt req = Return (Some symbol) ∧ symbol ≠ []
    ∧ ((∃ e, ticker_info env (upper rt symbol) = Raise e)
       ∨ (∃ info, ticker_info env (upper rt symbol) = Return info
                  ∧ current_price info ≠ VNone
                  ∧ ((∃ e, round (current_price info) 2 = Raise e)
                     ∨ (∃ z, current_price info = VInt z
                             ∧ (10 ^ int_max_str_digits ≤ Z.abs z)%Z)))).
Proof.
  destruct (resolve_symbol_spec rt req) as (cand & _ & Hr).
  set (o := if not_symbol (symbol_param req)
            then if looks_like_symbol rt cand then Some cand else symbol_param req
            else symbol_param req) in Hr.
  destruct (not_symbol o) eqn:Ho.
  - rewrite (main_of_unresolved rt env req o Hr Ho). split; [discriminate|].
    intros (symbol & Hr' & Hne & _). rewrite Hr in Hr'.
    injection Hr' as ->. by destruct symbol.
  - apply not_symbol_false in Ho as (c & s & Ho). rewrite Ho in Hr.
    rewrite (main_of_resolved rt env req (c :: s) Hr ltac:(done)).
    split.
    + intros Hs. exists (c :: s). split; [done|]. split; [done|].
      destruct (quote_cases rt env (c :: s))
        as [(e & Hi & Hq)|[(info & _ & _ & Hq)|[(info & e & Hi & Hp & Hround & Hq)
           |[(info & price & Hi & Hp & Hround & Hlimit & Hq)
            |(info & price & _ & _ & _ & _ & Hq)]]]]; rewrite Hq in Hs;
        try discriminate Hs.
      * left. by exists e.
      * right. exists info. split; [done|]. split; [done|]. left. by exists e.
      * right. exists info. split; [done|]. split; [done|]. right.
        by apply (str_raises_true_of_rounded _ price Hround).
    + intros (symbol & Hr' & Hne & Hcause). rewrite Hr in Hr'.
      injection Hr' as <-.
      destruct Hcause as [(e & Hi)|(info & Hi & Hp & [(e & Hround)|Hbig])].
      * by rewrite (quote_of_raise rt env _ e Hi).
      * rewrite (quote_of_price rt env _ info Hi Hp). by rewrite Hround.
      * rewrite (quote_of_price rt env _ info Hi Hp).
        destruct Hbig as (z & Hz & Hbig). rewrite Hz. cbn [round str_raises].
        unfold over_limit. by rewrite (proj2 (Z.leb_le _ _) Hbig).
Qed.

(** ** The kind of price the provider gives *)

(** X4: with a symbol resolved and a provider result in hand, a price that
    is not a number (a string, list or dictionary) is answered 500, not
    404; an integer price of at most 4300 digits is answered 200 unchanged
    and a longer one 500; a boolean price is answered 200 as the integer 1
    or 0. *)
Theorem price_kind_decides (rt : PyRuntime) (env : Env) (req : HttpRequest)
    (symbol : pystr) (info : gmap pystr pyval) :
  resolve_symbol rt req = Return (Some symbol) → symbol ≠ [] →
  ticker_info env (upper rt symbol) = Return info →
  ((∃ s, current_price info = VStr s) ∨ (∃ l, current_price info = VList l)
   ∨ (∃ d, current_price info = VDict d) →
   main rt env req = internal_error_response rt)
  ∧ (∀ z, current_price info = VInt z →
       (Z.abs z < 10 ^ int_max_str_digits)%Z →
       main rt env req =
       json_response rt (response_data env (upper rt symbol) (Int z)) 200)
  ∧ (∀ z, current_price info = VInt z →
       (10 ^ int_max_str_digits ≤ Z.abs z)%Z →
       main rt env req = internal_error_response rt)
  ∧ (∀ b, current_price info = VBool b →
       main rt env req =
       json_response rt
         (response_data env (upper rt symbol) (Int (if b then 1 else 0))) 200).
Proof.
  intros Hr Hne Hi.
  split; [|split; [|split]].
  - intros Hkind.
    rewrite (main_of_resolved rt env req symbol Hr Hne).
    rewrite (quote_of_price rt env symbol info Hi);
      [|by destruct Hkind as [[s Hs]|[[l Hl]|[d Hd]]]; congruence].
    by destruct Hkind as [[s ->]|[[l ->]|[d ->]]].
  - intros z Hz Hsmall.
    rewrite (priced_answer rt env req symbol info (Int z) Hr Hne Hi)
      by (rewrite Hz; done).
    rewrite Hz. cbn [str_raises]. unfold over_limit.
    by rewrite (proj2 (Z.leb_gt _ _) Hsmall).
  - intros z Hz Hbig.
    rewrite (priced_answer rt env req symbol info (Int z) Hr Hne Hi)
      by (rewrite Hz; done).
    rewrite Hz. cbn [str_raises]. unfold over_limit.
    by rewrite (proj2 (Z.leb_le _ _) Hbig).
  - intros b Hb.
    rewrite (priced_answer rt env req symbol info (Int (if b then 1 else 0))
               Hr Hne Hi) by (rewrite Hb; done).
    by rewrite Hb.
Qed.

Lemma price_kind_decides_witness :
  main ascii_runtime (env_of (Return (info_of (Some (VStr (str "n/a"))) None)))
    (request None "https://host/api/stock_quote/MSFT")
  = internal_error_response ascii_runtime
  ∧ main ascii_runtime
      (env_of (Return (info_of (Some (VInt (10 ^ 4300))) None)))
      (request None "https://host/api/stock_quote/MSFT")
    = internal_error_response ascii_runtime.
Proof.
  split.
  - refine (proj1 (price_kind_decides ascii_runtime
              (env_of (Return (info_of (Some (VStr (str "n/a"))) None)))
              (request None "https://host/api/stock_quote/MSFT")
              (str "MSFT") (info_of (Some (VStr (str "n/a"))) None) _ _ _) _).
    + vm_compute; reflexivity.
    + discriminate.
    + reflexivity.
    + left. exists (str "n/a"). vm_compute; reflexivity.
  - refine (proj1 (proj2 (proj2 (price_kind_decides ascii_runtime
              (env_of (Return (info_of (Some (VInt (10 ^ 4300))) None)))
              (request None "https://host/api/stock_quote/MSFT")
              (str "MSFT") (info_of (Some (VInt (10 ^ 4300))) None) _ _ _)))
            (10 ^ 4300)%Z _ _).
    + vm_compute; reflexivity.
    + discriminate.
    + reflexivity.
    + vm_compute; reflexivity.
    + vm_compute. discriminate.
Defined.

(** ** Independence *)

(** X5: the handler does not tell apart symbols that upper-case to the same
    string, nor the query form from the path form: two requests whose
    resolved symbols have the same upper-case form get the same answer. *)
Theorem same_upper_same_response (rt : PyRuntime) (env : Env)
    (req1 req2 : HttpRequest) (s1 s2 : pystr) :
  resolve_symbol rt req1 = Return (Some s1) → s1 ≠ [] →
  resolve_symbol rt req2 = Return (Some s2) → s2 ≠ [] →
  upper rt s1 = upper rt s2 →
  main rt env req1 = main rt env req2.
Proof.
  intros Hr1 Hne1 Hr2 Hne2 Hup.
  rewrite (main_of_resolved rt env req1 s1 Hr1 Hne1).
  rewrite (main_of_resolved rt env req2 s2 Hr2 Hne2).
  unfold quote. by rewrite Hup.
Qed.

Lemma same_upper_same_response_witness :
  main ascii_runtime (env_of (Return (info_of (Some (VInt 5)) None)))
    (request (Some "aapl"%string) "https://host/api/stock_quote")
  = main ascii_runtime (env_of (Return (info_of (Some (VInt 5)) None)))
      (request None "https://host/api/stock_quote/AAPL").
Proof.
  refine (same_upper_same_response ascii_runtime
            (env_of (Return (info_of (Some (VInt 5)) None)))
            (request (Some "aapl"%string) "https://host/api/stock_quote")
            (request None "https://host/api/stock_quote/AAPL")
            (str "aapl") (str "AAPL") _ _ _ _ _).
  - vm_compute; reflexivity.
  - discriminate.
  - vm_compute; reflexivity.
  - discriminate.
  - vm_compute; reflexivity.
Defined.

(** X6: the clock reaches the 'date' and 'time' fields of a 200 answer and
    nothing else. Against the same provider, two invocations at different
    times have the same status; a 400, 404 or 500 answer is the same
    response, and a 200 answer has the same 'symbol' and 'price'. *)
Theorem clock_only_in_date_and_time (rt : PyRuntime) (env1 env2 : Env)
    (req : HttpRequest) :
  (∀ symbol, ticker_info env1 symbol = ticker_info env2 symbol) →
  status_code (main rt env1 req) = status_code (main rt env2 req)
  ∧ (status_code (main rt env1 req) ≠ 200%Z →
     main rt env1 req = main rt env2 req)
  ∧ (status_code (main rt env1 req) = 200%Z →
     ∃ symbol price,
       main rt env1 req = json_response rt (response_data env1 symbol price) 200
       ∧ main rt env2 req = json_response rt (response_data env2 symbol price) 200).
Proof.
  intros Hsame.
  assert (∀ symbol,
    let r1 := try_except (quote rt env1 symbol)
                (fun _ => internal_error_response rt) in
    let r2 := try_except (quote rt env2 symbol)
                (fun _ => internal_error_response rt) in
    (r1 = r2 ∧ status_code r1 ≠ 200%Z)
    ∨ ∃ price,
        r1 = json_response rt (response_data env1 (upper rt symbol) price) 200
        ∧ r2 = json_response rt (response_data env2 (upper rt symbol) price) 200)
    as Hq.
  { intros symbol. cbv zeta.
    pose proof (Hsame (upper rt symbol)) as Hi2.
    destruct (ticker_info env1 (upper rt symbol)) as [info|e] eqn:Hi1;
      symmetry in Hi2.
    - assert (current_price info = VNone ∨ current_price info ≠ VNone) as [Hp|Hp]
        by (destruct (current_price info); (by left) || (by right)).
      + rewrite (quote_of_no_price rt env1 symbol info Hi1 Hp).
        rewrite (quote_of_no_price rt env2 symbol info Hi2 Hp).
        left. split; [reflexivity|]. cbn [try_except status_code no_price_response
                                          json_response]. lia.
      + rewrite (quote_of_price rt env1 symbol info Hi1 Hp).
        rewrite (quote_of_price rt env2 symbol info Hi2 Hp).
        destruct (round (current_price info) 2) as [price|e];
          [destruct (str_raises (current_price info))|].
        * left. split; [reflexivity|].
          cbn [try_except status_code internal_error_response json_response]. lia.
        * right. by exists price.
        * left. split; [reflexivity|].
          cbn [try_except status_code internal_error_response json_response]. lia.
    - rewrite (quote_of_raise rt env1 symbol e Hi1).
      rewrite (quote_of_raise rt env2 symbol e Hi2).
      left. split; [reflexivity|].
      cbn [try_except status_code internal_error_response json_response]. lia. }
  assert (∀ r1 r2 : HttpResponse,
    (r1 = r2 ∧ status_code r1 ≠ 200%Z)
    ∨ (∃ symbol price,
         r1 = json_response rt (response_data env1 symbol price) 200
         ∧ r2 = json_response rt (response_data env2 symbol price) 200) →
    status_code r1 = status_code r2
    ∧ (status_code r1 ≠ 200%Z → r1 = r2)
    ∧ (status_code r1 = 200%Z →
       ∃ symbol price,
         r1 = json_response rt (response_data env1 symbol price) 200
         ∧ r2 = json_response rt (response_data env2 symbol price) 200)) as Hfin.
  { intros r1 r2 [[-> Hs]|(symbol & price & -> & ->)].
    - split; [done|]. split; [done|]. intros Hs'. by destruct Hs.
    - split; [reflexivity|]. split.
      + intros Hs. by destruct Hs.
      + intros _. by exists symbol, price. }
  apply Hfin.
  destruct (main_spec rt env1 req) as (cand & Hcand & ->).
  destruct (main_spec rt env2 req) as (cand' & Hcand' & ->).
  rewrite (path_candidate_unique _ _ _ Hcand' Hcand).
  assert (∀ symbol,
    (try_except (quote rt env1 symbol) (fun _ => internal_error_response rt)
     = try_except (quote rt env2 symbol) (fun _ => internal_error_response rt)
     ∧ status_code (try_except (quote rt env1 symbol)
                      (fun _ => internal_error_response rt)) ≠ 200%Z)
    ∨ (∃ symbol0 price,
         try_except (quote rt env1 symbol) (fun _ => internal_error_response rt)
         = json_response rt (response_data env1 symbol0 price) 200
         ∧ try_except (quote rt env2 symbol) (fun _ => internal_error_response rt)
           = json_response rt (response_data env2 symbol0 price) 200)) as Hq'.
  { intros symbol. destruct (Hq symbol) as [H|(price & H)]; [by left|].
    right. by exists (upper rt symbol), price. }
  destruct (symbol_param req) as [[|c v]|]; [| apply Hq' |];
    (destruct (looks_like_symbol rt cand);
     [apply Hq' | left; split; [reflexivity | cbn; lia]]).
Qed.

Lemma clock_only_in_date_and_time_witness :
  status_code
    (main ascii_runtime (env_of (Return (info_of (Some (VInt 5)) None)))
       (request None "https://host/api/stock_quote/MSFT"))
  = status_code
      (main ascii_runtime
         (later (env_of (Return (info_of (Some (VInt 5)) None))))
         (request None "https://host/api/stock_quote/MSFT")).
Proof.
  refine (proj1 (clock_only_in_date_and_time ascii_runtime
            (env_of (Return (info_of (Some (VInt 5)) None)))
            (later (env_of (Return (info_of (Some (VInt 5)) None))))
            (request None "https://host/api/stock_quote/MSFT") _)).
  intros symbol. reflexivity.
Defined.

(** ** The path form *)

Lemma looks_like_symbol_no_separator (rt : PyRuntime) (seg : pystr) :
  looks_like_symbol rt seg = true → (slash ∉ seg) ∧ (question_mark ∉ seg).
Proof.
  intros Hl. apply looks_like_symbol_spec in Hl as (_ & Ha & _).
  unfold alphabetic in Ha. rewrite Forall_forall in Ha.
  split; intros Hin; apply Ha in Hin; vm_compute in Hin; discriminate.
Qed.

(** X7: with no usable query parameter, a URL that ends in [/SEG], or in
    [/SEG?query] where the query holds no [/], resolves to [SEG] whenever
    [SEG] looks like a symbol. What precedes that last [/] is never looked
    at; it may itself hold a [?]. *)
Theorem path_form_resolves (rt : PyRuntime) (req : HttpRequest)
    (before seg query : pystr) :
  not_symbol (symbol_param req) = true →
  looks_like_symbol rt seg = true →
  url req = before ++ slash :: seg
  ∨ (url req = before ++ slash :: seg ++ question_mark :: query ∧ slash ∉ query) →
  resolve_symbol rt req = Return (Some seg).
Proof.
  intros Hn Hl Hurl.
  destruct (looks_like_symbol_no_separator rt seg Hl) as [Hslash Hquestion].
  assert (path_candidate (url req) seg) as Hseg.
  { destruct Hurl as [->|[-> Hq]].
    - exists seg. split; [split; [done|]; right; by exists before|].
      split; [done|]. by left.
    - exists (seg ++ question_mark :: query). split.
      + split; [|right; by exists before].
        apply not_elem_of_app. split; [done|].
        apply not_elem_of_cons. split; [|done]. vm_compute. discriminate.
      + split; [done|]. right. by exists query. }
  destruct (resolve_symbol_spec rt req) as (cand & Hcand & ->).
  rewrite (path_candidate_unique _ _ _ Hcand Hseg). by rewrite Hn, Hl.
Qed.

Lemma path_form_resolves_witness :
  resolve_symbol ascii_runtime
    (request None "https://host/api/stock_quote/msft?code=abc")
  = Return (Some (str "msft")).
Proof.
  refine (path_form_resolves ascii_runtime
            (request None "https://host/api/stock_quote/msft?code=abc")
            (str "https://host/api/stock_quote") (str "msft") (str "code=abc")
            _ _ _).
  - reflexivity.
  - vm_compute; reflexivity.
  - right. split; [vm_compute; reflexivity|].
    intros Hin. apply list_elem_of_In in Hin. vm_compute in Hin. intuition discriminate.
Defined.

(** X8: with no usable query parameter, a URL that ends in [/], or whose
    last [/] is directly followed by the query string, leaves an empty
    candidate and is answered 400. *)
Theorem trailing_slash_is_400 (rt : PyRuntime) (env : Env) (req : HttpRequest)
    (before query : pystr) :
  not_symbol (symbol_param req) = true →
  url req = before ++ [slash]
  ∨ (url req = before ++ slash :: question_mark :: query ∧ slash ∉ query) →
  main rt env req = missing_symbol_response rt.
Proof.
  intros Hn Hurl.
  assert (path_candidate (url req) []) as Hempty.
  { destruct Hurl as [->|[-> Hq]].
    - exists []. split; [split; [apply not_elem_of_nil|]; right; by exists before|].
      split; [apply not_elem_of_nil|]. by left.
    - exists (question_mark :: query). split.
      + split; [|right; by exists before].
        apply not_elem_of_cons. split; [|done]. vm_compute. discriminate.
      + split; [apply not_elem_of_nil|]. right. by exists query. }
  destruct (resolve_symbol_spec rt req) as (cand & Hcand & Hr).
  rewrite (path_candidate_unique _ _ _ Hcand Hempty), Hn in Hr.
  change (looks_like_symbol rt []) with false in Hr.
  by apply (main_of_unresolved rt env req _ Hr).
Qed.

Lemma trailing_slash_is_400_witness :
  main ascii_runtime (env_of (Return ∅))
    (request None "https://host/api/stock_quote/")
  = missing_symbol_response ascii_runtime.
Proof.
  refine (trailing_slash_is_400 ascii_runtime (env_of (Return ∅))
            (request None "https://host/api/stock_quote/")
            (str "https://host/api/stock_quote") [] _ _).
  - reflexivity.
  - left. vm_compute; reflexivity.
Defined.

(** ** Prices at the edges *)

(** X9: a price of NaN or of an infinity is true, is not [None] and rounds
    to itself: the answer is 200, and the 'price' of its body is written
    [NaN], [Infinity] or [-Infinity]. *)
Theorem non_finite_price_is_200 (rt : PyRuntime) (env : Env) (req : HttpRequest)
    (symbol : pystr) (info : gmap pystr pyval) (f : spec_float) :
  resolve_symbol rt req = Return (Some symbol) → symbol ≠ [] →
  ticker_info env (upper rt symbol) = Return info →
  info_get info (str "currentPrice") = VFloat f →
  f = S754_nan ∨ (∃ s, f = S754_infinity s) →
  main rt env req =
  json_response rt (response_data env (upper rt symbol) (Float f)) 200
  ∧ dumps_value rt (JNum (Float f)) =
    match f with
    | S754_infinity false => str "Infinity"
    | S754_infinity true => str "-Infinity"
    | _ => str "NaN"
    end.
Proof.
  intros Hr Hne Hi Hp Hf.
  assert (current_price info = VFloat f) as Hcur.
  { unfold current_price, py_or. rewrite Hp.
    by destruct Hf as [->|[s ->]]. }
  rewrite (priced_answer rt env req symbol info (Float f) Hr Hne Hi)
    by (rewrite Hcur; by destruct Hf as [->|[? ->]]).
  rewrite Hcur. by destruct Hf as [->|[[] ->]].
Qed.

Lemma non_finite_price_is_200_witness :
  main ascii_runtime (env_of (Return (info_of (Some (VFloat S754_nan)) None)))
    (request (Some "AAPL"%string) "https://host/api/stock_quote")
  = json_response ascii_runtime
      (response_data (env_of (Return (info_of (Some (VFloat S754_nan)) None)))
         (str "AAPL") (Float S754_nan)) 200.
Proof.
  refine (proj1 (non_finite_price_is_200 ascii_runtime
            (env_of (Return (info_of (Some (VFloat S754_nan)) None)))
            (request (Some "AAPL"%string) "https://host/api/stock_quote")
            (str "AAPL") (info_of (Some (VFloat S754_nan)) None) S754_nan
            _ _ _ _ _)).
  - vm_compute; reflexivity.
  - discriminate.
  - reflexivity.
  - vm_compute; reflexivity.
  - by left.
Defined.

(** X10: the fallback is taken as it is. When the primary price is absent
    or false and [regularMarketPrice] is an integer of at most 4300 digits,
    zero included, the answer is 200 with that integer as the price. *)
Theorem fallback_integer_price (rt : PyRuntime) (env : Env) (req : HttpRequest)
    (symbol : pystr) (info : gmap pystr pyval) (z : Z) :
  resolve_symbol rt req = Return (Some symbol) → symbol ≠ [] →
  ticker_info env (upper rt symbol) = Return info →
  truthy (info_get info (str "currentPrice")) = false →
  info_get info (str "regularMarketPrice") = VInt z →
  (Z.abs z < 10 ^ int_max_str_digits)%Z →
  main rt env req =
  json_response rt (response_data env (upper rt symbol) (Int z)) 200.
Proof.
  intros Hr Hne Hi Hp Hz Hsmall.
  assert (current_price info = VInt z) as Hcur
    by (unfold current_price, py_or; by rewrite Hp).
  rewrite (priced_answer rt env req symbol info (Int z) Hr Hne Hi)
    by (rewrite Hcur; done).
  rewrite Hcur. cbn [str_raises]. unfold over_limit.
  by rewrite (proj2 (Z.leb_gt _ _) Hsmall).
Qed.

Lemma fallback_integer_price_witness :
  main ascii_runtime (env_of (Return (info_of (Some (VInt 0)) (Some (VInt 0)))))
    (request (Some "AAPL"%string) "https://host/api/stock_quote")
  = json_response ascii_runtime
      (response_data (env_of (Return (info_of (Some (VInt 0)) (Some (VInt 0)))))
         (str "AAPL") (Int 0)) 200.
Proof.
  refine (fallback_integer_price ascii_runtime
            (env_of (Return (info_of (Some (VInt 0)) (Some (VInt 0)))))
            (request (Some "AAPL"%string) "https://host/api/stock_quote")
            (str "AAPL") (info_of (Some (VInt 0)) (Some (VInt 0))) 0 _ _ _ _ _ _).
  - vm_compute; reflexivity.
  - discriminate.
  - reflexivity.
  - vm_compute; reflexivity.
  - vm_compute; reflexivity.
  - reflexivity.
Defined.

(** ** The text of the answers *)

Lemma hex_digit_printable (n : N) :
  (n < 16)%N → (32 ≤ hex_digit n ≤ 126)%N.
Proof.
  intros Hn. unfold hex_digit. destruct (N.ltb_spec n 10); lia.
Qed.

Lemma u_escape_printable (n : N) : printable_ascii (u_escape n).
Proof.
  unfold u_escape, printable_ascii.
  repeat apply Forall_cons_2; try apply Forall_nil_2; try lia;
    apply hex_digit_printable, N.mod_upper_bound; lia.
Qed.

Lemma escape_char_printable (c : N) : printable_ascii (escape_char c).
Proof.
  unfold escape_char.
  repeat (destruct (_ =? _)%N;
          [unfold printable_ascii; repeat apply Forall_cons_2;
           try apply Forall_nil_2; lia|]).
  destruct ((32 <=? c) && (c <=? 126))%N eqn:Hc.
  - apply andb_true_iff in Hc as [H1 H2].
    apply N.leb_le in H1, H2.
    unfold printable_ascii. apply Forall_cons_2; [lia | apply Forall_nil_2].
  - destruct (c <? 65536)%N; [apply u_escape_printable|].
    apply Forall_app_2; apply u_escape_printable.
Qed.

Lemma encode_basestring_ascii_printable (s : pystr) :
  printable_ascii (encode_basestring_ascii s).
Proof.
  unfold encode_basestring_ascii, printable_ascii.
  apply Forall_app_2; [apply Forall_cons_2; [lia | apply Forall_nil_2]|].
  apply Forall_app_2; [|apply Forall_cons_2; [lia | apply Forall_nil_2]].
  induction s as [|c s IH]; [apply Forall_nil_2|].
  simpl. apply Forall_app_2; [apply escape_char_printable | exact IH].
Qed.

Lemma printable_by_check (s : pystr) :
  forallb (fun c => (32 <=? c) && (c <=? 126))%N s = true → printable_ascii s.
Proof.
  unfold printable_ascii. induction s as [|c s IH]; simpl; [constructor|].
  intros [Hc Hs]%andb_true_iff. apply andb_true_iff in Hc as [H1 H2].
  apply N.leb_le in H1, H2. constructor; [lia | by apply IH].
Qed.

Lemma error_body_printable (rt : PyRuntime) (message : pystr) (status : Z) :
  printable_ascii (body (json_response rt [(str "error", JStr message)] status)).
Proof.
  cbn [body json_response]. unfold dumps.
  cbn [List.map join_items dumps_item dumps_value fst snd].
  pose proof (encode_basestring_ascii_printable (str "error")) as Hkey.
  pose proof (encode_basestring_ascii_printable message) as Hmsg.
  unfold printable_ascii in *.
  apply Forall_app_2; [by apply printable_by_check|].
  apply Forall_app_2; [|by apply printable_by_check].
  apply Forall_app_2; [exact Hkey|].
  apply Forall_app_2; [by apply printable_by_check | exact Hmsg].
Qed.

Lemma json_string_chars_app (s1 s2 : pystr) :
  json_string_chars s1 → json_string_chars s2 → json_string_chars (s1 ++ s2).
Proof.
  intros Hfirst Hsecond.
  induction Hfirst; simpl; [done|..].
  - by apply chars_plain.
  - by apply chars_escape.
  - by apply chars_unicode.
Qed.

Lemma hex_digit_hex_char (n : N) : (n < 16)%N → hex_char (hex_digit n).
Proof.
  intros Hn. unfold hex_char, hex_digit. destruct (N.ltb_spec n 10); lia.
Qed.

Lemma u_escape_chars (n : N) : json_string_chars (u_escape n).
Proof.
  unfold u_escape.
  apply chars_unicode;
    try (apply hex_digit_hex_char, N.mod_upper_bound; lia).
  apply chars_nil.
Qed.

(** Every character is written as itself only if it is plain; a double
    quote, a backslash and everything outside printable ASCII become
    escape sequences. *)
Lemma escape_char_chars (c : N) : json_string_chars (escape_char c).
Proof.
  unfold escape_char.
  destruct (N.eqb_spec c 92) as [_|H92];
    [apply chars_escape; [set_solver | apply chars_nil]|].
  destruct (N.eqb_spec c 34) as [_|H34];
    [apply chars_escape; [set_solver | apply chars_nil]|].
  repeat (destruct (_ =? _)%N;
          [apply chars_escape; [set_solver | apply chars_nil]|]).
  destruct ((32 <=? c) && (c <=? 126))%N eqn:Hc.
  - apply andb_true_iff in Hc as [H1 H2]. apply N.leb_le in H1, H2.
    apply chars_plain; [lia | done | done | apply chars_nil].
  - destruct (c <? 65536)%N; [apply u_escape_chars|].
    apply json_string_chars_app; apply u_escape_chars.
Qed.

Lemma escaped_chars (s : pystr) : json_string_chars (flat_map escape_char s).
Proof.
  induction s as [|c s IH]; simpl; [apply chars_nil|].
  apply json_string_chars_app; [apply escape_char_chars | exact IH].
Qed.

(** The text of an error body: the message between the quotes, escaped. *)
Lemma error_body_text (rt : PyRuntime) (message : pystr) (status : Z) :
  body (json_response rt [(str "error", JStr message)] status)
  = jlit "{'error': '" ++ flat_map escape_char message ++ jlit "'}".
Proof.
  cbn [body json_response]. unfold dumps.
  cbn [List.map join_items].
  unfold dumps_item, dumps_value, encode_basestring_ascii. cbn [fst snd].
  rewrite <- !app_assoc. reflexivity.
Qed.

(** X12: the body of every 400, 404 and 500 answer is the text
    [{"error": "..."}] whose string is well formed whatever characters the
    request put into the symbol: between the quotes stand only plain
    printable ASCII characters other than the double quote and the
    backslash, and backslash escape sequences. So a double quote or a
    backslash of the symbol is always escaped, and the whole body is
    printable ASCII. *)
Theorem error_bodies_are_json_strings (rt : PyRuntime) (env : Env)
    (req : HttpRequest) :
  status_code (main rt env req) ≠ 200%Z →
  (∃ chars, body (main rt env req) = jlit "{'error': '" ++ chars ++ jlit "'}"
            ∧ json_string_chars chars)
  ∧ printable_ascii (body (main rt env req)).
Proof.
  destruct (main_response_cases rt env req)
    as [->|[->|[(symbol & ->)|(symbol & price & ->)]]]; intros Hs.
  - split; [|apply error_body_printable].
    eexists. split; [apply error_body_text | apply escaped_chars].
  - split; [|apply error_body_printable].
    eexists. split; [apply error_body_text | apply escaped_chars].
  - split; [|apply error_body_printable].
    eexists. split; [apply error_body_text | apply escaped_chars].
  - by destruct Hs.
Qed.

Lemma error_bodies_are_json_strings_witness :
  (∃ chars,
     body (main ascii_runtime (env_of (Return ∅))
             (request (Some "a'b\c"%string) "https://host/api/stock_quote"))
     = jlit "{'error': '" ++ chars ++ jlit "'}"
     ∧ json_string_chars chars)
  ∧ printable_ascii
      (body (main ascii_runtime (env_of (Return ∅))
               (request (Some "a'b\c"%string) "https://host/api/stock_quote"))).
Proof.
  refine (error_bodies_are_json_strings ascii_runtime (env_of (Return ∅))
            (request (Some "a'b\c"%string) "https://host/api/stock_quote") _).
  vm_compute. discriminate.
Defined.

(** X13: on an all-ASCII symbol upper-casing keeps the length, leaves no
    lower-case letter and changes nothing when applied again. *)
Theorem upper_ascii (rt : PyRuntime) (s : pystr) :
  ascii_only s →
  length (upper rt s) = length s
  ∧ ascii_only (upper rt s)
  ∧ no_ascii_lower (upper rt s)
  ∧ upper rt (upper rt s) = upper rt s.
Proof.
  unfold ascii_only, no_ascii_lower.
  induction 1 as [|c s Hc Hs (IHlen & IHascii & IHlow & IHidem)].
  - repeat split; constructor.
  - assert (∃ d, cp_upper rt c = [d] ∧ (d < 128)%N ∧ ¬ (97 ≤ d ≤ 122)%N
                 ∧ cp_upper rt d = [d]) as (d & Hd & Hd128 & Hdlow & Hdd).
    { unfold cp_upper. apply N.ltb_lt in Hc as Hc'. rewrite Hc'.
      destruct ((97 <=? c) && (c <=? 122))%N eqn:Hl.
      - apply andb_true_iff in Hl as [H1 H2]. apply N.leb_le in H1, H2.
        exists (c - 32)%N. split; [done|]. split; [lia|]. split; [lia|].
        assert ((c - 32 <? 128)%N = true) as -> by (apply N.ltb_lt; lia).
        assert ((97 <=? c - 32)%N = false) as -> by (apply N.leb_gt; lia).
        done.
      - exists c. split; [done|]. split; [done|].
        apply andb_false_iff in Hl. split.
        + destruct Hl as [Hl|Hl]; apply N.leb_gt in Hl; lia.
        + by rewrite Hc', (proj2 (andb_false_iff _ _) Hl). }
    unfold upper in *. simpl. rewrite Hd. simpl. rewrite Hdd. simpl.
    repeat split.
    + by rewrite IHlen.
    + by constructor.
    + by constructor.
    + by rewrite IHidem.
Qed.

Lemma upper_ascii_witness :
  length (upper ascii_runtime (str "brk.b")) = length (str "brk.b")
  ∧ ascii_only (upper ascii_runtime (str "brk.b"))
  ∧ no_ascii_lower (upper ascii_runtime (str "brk.b"))
  ∧ upper ascii_runtime (upper ascii_runtime (str "brk.b"))
    = upper ascii_runtime (str "brk.b").
Proof.
  refine (upper_ascii ascii_runtime (str "brk.b") _).
  vm_compute. repeat constructor.
Defined.

(** ** Success, and what the URL is for *)

(** X14: the answer is 200 exactly when a symbol was resolved, the provider
    returned a result for its upper-cased form, the price found there is
    not [None], [round] accepts it, and it can be written, that is it is
    not an integer of more than 4300 digits. *)
Theorem status_200_iff (rt : PyRuntime) (env : Env) (req : HttpRequest) :
  status_code (main rt env req) = 200%Z ↔
  ∃ symbol info price,
    resolve_symbol rt req = Return (Some symbol) ∧ symbol ≠ []
    ∧ ticker_info env (upper rt symbol) = Return info
    ∧ current_price info ≠ VNone
    ∧ round (current_price info) 2 = Return price
    ∧ writable (current_price info).
Proof.
  destruct (resolve_symbol_spec rt req) as (cand & _ & Hr).
  set (o := if not_symbol (symbol_param req)
            then if looks_like_symbol rt cand then Some cand else symbol_param req
            else symbol_param req) in Hr.
  destruct (not_symbol o) eqn:Ho.
  - rewrite (main_of_unresolved rt env req o Hr Ho). split; [discriminate|].
    intros (symbol & info & price & Hr' & Hne & _). rewrite Hr in Hr'.
    injection Hr' as ->. by destruct symbol.
  - apply not_symbol_false in Ho as (c & s & Ho). rewrite Ho in Hr.
    split.
    + rewrite (main_of_resolved rt env req (c :: s) Hr ltac:(done)).
      intros Hs.
      destruct (quote_cases rt env (c :: s))
        as [(e & _ & Hq)|[(info & _ & _ & Hq)|[(info & e & _ & _ & _ & Hq)
           |[(info & price & _ & _ & _ & _ & Hq)
            |(info & price & Hi & Hp & Hround & Hlimit & Hq)]]]];
        rewrite Hq in Hs; try discriminate Hs.
      exists (c :: s), info, price. repeat (split; [done|]).
      by apply (str_raises_of_rounded _ price Hround).
    + intros (symbol & info & price & Hr' & Hne & Hi & Hp & Hround & Hw).
      rewrite (priced_answer rt env req symbol info price Hr' Hne Hi Hp Hround).
      by rewrite (proj2 (str_raises_of_rounded _ price Hround) Hw).
Qed.

(** X15: a non-empty query parameter makes the URL irrelevant: two requests
    with the same non-empty 'symbol' parameter get the same answer whatever
    their URLs are. *)
Theorem parameter_makes_url_irrelevant (rt : PyRuntime) (env : Env)
    (req1 req2 : HttpRequest) :
  not_symbol (symbol_param req1) = false →
  symbol_param req2 = symbol_param req1 →
  main rt env req1 = main rt env req2.
Proof.
  intros Hn Hsame.
  apply not_symbol_false in Hn as (c & v & Hp).
  destruct (main_spec rt env req1) as (cand1 & _ & ->).
  destruct (main_spec rt env req2) as (cand2 & _ & ->).
  by rewrite Hsame, Hp.
Qed.

Lemma parameter_makes_url_irrelevant_witness :
  main ascii_runtime (env_of (Return (info_of (Some (VInt 5)) None)))
    (request (Some "aapl"%string) "https://host/api/stock_quote/MSFT")
  = main ascii_runtime (env_of (Return (info_of (Some (VInt 5)) None)))
      (request (Some "aapl"%string) "https://host/api/stock_quote").
Proof.
  refine (parameter_makes_url_irrelevant ascii_runtime
            (env_of (Return (info_of (Some (VInt 5)) None)))
            (request (Some "aapl"%string) "https://host/api/stock_quote/MSFT")
            (request (Some "aapl"%string) "https://host/api/stock_quote") _ _).
  - vm_compute; reflexivity.
  - vm_compute; reflexivity.
Defined.
